(** * EcoTracker: activity log, photo log and statistics

    A shallow embedding of the logic of the EcoTracker screens
    (AddActivityScreen, PhotoScreen, StatsScreen, HomeScreen) and the
    properties of the activity analytics that the specification states.

    Conventions of the embedding:
    - a JavaScript string is the list of its UTF-16 code units;
    - a JavaScript number that the program only ever uses as an integer
      (points, counts, epoch milliseconds) is a [Z]; the quotient
      [recentPoints / 7] is a rational;
    - an ISO timestamp string produced by [toISOString] and read back by
      [new Date(...)] is the epoch-millisecond instant it denotes;
    - an [async] function with [try]/[catch] is a computation in a state and
      exception monad over the device and the screens' React state. *)

From Stdlib Require Import ZArith NArith List Bool Lia String Ascii.
From Stdlib Require Import QArith Qround Permutation Sorted DecimalString.
Import ListNotations.
Local Open Scope Z_scope.

Set Implicit Arguments.

(* ================================================================== *)
(** * The JavaScript fragment the screens use *)
(* ================================================================== *)

Module JS.

(** Strings: sequences of UTF-16 code units. *)
Definition jsstring := list N.

(** An ASCII literal of the source as a JavaScript string. *)
Definition js (s : string) : jsstring :=
  List.map N_of_ascii (list_ascii_of_string s).

Fixpoint streq (a b : jsstring) : bool :=
  match a, b with
  | [], [] => true
  | x :: a', y :: b' => N.eqb x y && streq a' b'
  | _, _ => false
  end.

(** [!s] is true exactly for the empty string. *)
Definition truthy_str (s : jsstring) : bool :=
  match s with [] => false | _ :: _ => true end.

(** ECMAScript WhiteSpace and LineTerminator code points, the characters that
    [String.prototype.trim] and [parseInt] strip. *)
Definition isWhiteSpace (c : N) : bool :=
  let z := Z.of_N c in
  (z =? 9) || (z =? 10) || (z =? 11) || (z =? 12) || (z =? 13) || (z =? 32)
  || (z =? 160) || (z =? 5760) || ((8192 <=? z) && (z <=? 8202))
  || (z =? 8232) || (z =? 8233) || (z =? 8239) || (z =? 8287)
  || (z =? 12288) || (z =? 65279).

Fixpoint trimStart (s : jsstring) : jsstring :=
  match s with
  | c :: s' => if isWhiteSpace c then trimStart s' else s
  | [] => []
  end.

Definition trimEnd (s : jsstring) : jsstring := rev (trimStart (rev s)).

Definition trim (s : jsstring) : jsstring := trimEnd (trimStart s).

(** Value of a character as a digit: 0-9, a-z, A-Z. *)
Definition digitValue (c : N) : option Z :=
  let z := Z.of_N c in
  if (48 <=? z) && (z <=? 57) then Some (z - 48)
  else if (97 <=? z) && (z <=? 122) then Some (z - 97 + 10)
  else if (65 <=? z) && (z <=? 90) then Some (z - 65 + 10)
  else None.

Definition radixDigit (R : Z) (c : N) : option Z :=
  match digitValue c with
  | Some v => if v <? R then Some v else None
  | None => None
  end.

(** The longest prefix of radix-[R] digits. *)
Fixpoint digitsPrefix (R : Z) (s : jsstring) : list Z :=
  match s with
  | c :: s' =>
      match radixDigit R c with
      | Some v => v :: digitsPrefix R s'
      | None => []
      end
  | [] => []
  end.

Definition mathInt (R : Z) (ds : list Z) : Z :=
  fold_left (fun acc d => acc * R + d) ds 0.

(** [parseInt(s)] with no radix argument; [None] is NaN.  Leading white
    space is skipped, one sign is read, a [0x]/[0X] prefix selects radix 16,
    and the longest digit prefix is converted; no digit at all gives NaN.
    The result here is the exact integer.  The code's result is the double
    nearest to it, which is that integer when its magnitude is at most 2^53;
    a property that depends on the value of a parse beyond that range
    carries the bound as a hypothesis. *)
Definition parseInt (s : jsstring) : option Z :=
  let s0 := trimStart s in
  let '(sign, s1) :=
    match s0 with
    | 45%N :: r => (-1, r)
    | 43%N :: r => (1, r)
    | _ => (1, s0)
    end in
  let '(R, s2) :=
    match s1 with
    | 48%N :: 120%N :: r => (16, r)
    | 48%N :: 88%N :: r => (16, r)
    | _ => (10, s1)
    end in
  match digitsPrefix R s2 with
  | [] => None
  | ds => Some (sign * mathInt R ds)
  end.

(** [x || 0] for a number [x] that may be NaN or [undefined] ([None]): these
    and 0 are falsy. *)
Definition num_or_0 (x : option Z) : Z :=
  match x with
  | Some n => if n =? 0 then 0 else n
  | None => 0
  end.

(** [Number.prototype.toString] on an integer. *)
Definition Number_toString (z : Z) : jsstring :=
  js (NilZero.string_of_int (Z.to_int z)).

(** [Math.round]: the nearest integer, a half goes up. *)
Definition Math_round (q : Q) : Z := Qfloor (q + (1 # 2))%Q.

(** [Array.prototype.sort(cmp)]: a stable sort; [cmp a b > 0] puts [a]
    after [b].  Insertion from the right keeps equal elements in their
    original order, and for a consistent comparator every stable sorting
    algorithm returns this same array. *)
Section Sort.
Variable A : Type.
Variable cmp : A -> A -> Z.

Fixpoint insert (x : A) (l : list A) : list A :=
  match l with
  | [] => [x]
  | y :: l' => if cmp x y <=? 0 then x :: l else y :: insert x l'
  end.

Fixpoint Array_sort (l : list A) : list A :=
  match l with
  | [] => []
  | x :: l' => insert x (Array_sort l')
  end.
End Sort.

(** A plain object used as a map from string keys to numbers.  Own string
    keys that are not array indices are enumerated in insertion order, so
    the object is an association list in that order. *)
Definition JSObject := list (jsstring * Z).

(** [o[k]]; [None] is [undefined]. *)
Fixpoint obj_get (o : JSObject) (k : jsstring) : option Z :=
  match o with
  | [] => None
  | (k', v) :: o' => if streq k k' then Some v else obj_get o' k
  end.

(** [o[k] = v]: overwrite in place, or add as the last key. *)
Fixpoint obj_set (o : JSObject) (k : jsstring) (v : Z) : JSObject :=
  match o with
  | [] => [(k, v)]
  | (k', v') :: o' =>
      if streq k k' then (k', v) :: o' else (k', v') :: obj_set o' k v
  end.

Definition Object_keys (o : JSObject) : list jsstring := List.map fst o.

(** [x > y] on values that may be [undefined]: a comparison with
    [undefined] (NaN after conversion) is false. *)
Definition js_gt (x y : option Z) : bool :=
  match x, y with
  | Some a, Some b => a >? b
  | _, _ => false
  end.

End JS.
Import JS.

(* ================================================================== *)
(** * Data model *)
(* ================================================================== *)

(** An activity as [handleSaveActivity] stores it. *)
Module Activity.
Record t := {
  id : jsstring;
  description : jsstring;
  category : jsstring;
  duration : jsstring;
  notes : jsstring;
  points : Z;
  timestamp : Z
}.
End Activity.

(** [interface Photo]. *)
Module Photo.
Record t := {
  id : jsstring;
  uri : jsstring;
  description : jsstring;
  timestamp : Z
}.
End Photo.

(** [interface Stats]. *)
Module Stats.
Record t := {
  totalPoints : Z;
  totalActivities : Z;
  averageDaily : Z;
  bestCategory : jsstring;
  currentStreak : Z
}.
End Stats.

(** ** AsyncStorage

    The text stored under a key is either the JSON of an array of records
    (what [JSON.stringify] wrote, and [JSON.parse] reads back unchanged), the
    empty string, or a text on which [JSON.parse] throws.  A text that parses
    to something other than an array of records is not represented.  An
    absent key is [None]: [getItem] resolves to [null]. *)
Inductive Stored (A : Type) : Type :=
| JsonText (records : list A)
| EmptyText
| MalformedText.
Arguments EmptyText {A}.
Arguments MalformedText {A}.

(** The two keys the application uses, with the records each one holds. *)
Inductive Key : Type -> Type :=
| activities : Key Activity.t
| photos : Key Photo.t.

Record AsyncStorage := {
  item_activities : option (Stored Activity.t);
  item_photos : option (Stored Photo.t);
  reachable : bool   (* false: every call on the medium rejects *)
}.

Record Alert := { title : jsstring; message : jsstring }.

(** React state of the three screens that load data. *)
Record StatsState := {
  stats : Stats.t;
  stats_activities : list Activity.t;
  categoryStats : JSObject
}.

Record PhotoState := { photoList : list Photo.t }.

Record HomeState := {
  totalPoints : Z;
  todayPoints : Z;
  recentActivities : list Activity.t
}.

Record World := {
  storage : AsyncStorage;
  alerts : list Alert;          (* Alert.alert calls, oldest first *)
  console : list jsstring;      (* console.error calls, oldest first *)
  statsScreen : StatsState;
  photoScreen : PhotoState;
  homeScreen : HomeState
}.

(** [useState] initial values. *)
Definition initialStats : Stats.t :=
  {| Stats.totalPoints := 0; Stats.totalActivities := 0;
     Stats.averageDaily := 0; Stats.bestCategory := js "None";
     Stats.currentStreak := 0 |}.

Definition initialStatsState : StatsState :=
  {| stats := initialStats; stats_activities := []; categoryStats := [] |}.

Definition initialPhotoState : PhotoState := {| photoList := [] |}.

Definition initialHomeState : HomeState :=
  {| totalPoints := 0; todayPoints := 0; recentActivities := [] |}.

(** A device with the given storage and freshly mounted screens. *)
Definition freshWorld (s : AsyncStorage) : World :=
  {| storage := s; alerts := []; console := [];
     statsScreen := initialStatsState; photoScreen := initialPhotoState;
     homeScreen := initialHomeState |}.

Definition with_storage (s : AsyncStorage) (w : World) : World :=
  {| storage := s; alerts := alerts w; console := console w;
     statsScreen := statsScreen w; photoScreen := photoScreen w;
     homeScreen := homeScreen w |}.

Definition with_alerts (l : list Alert) (w : World) : World :=
  {| storage := storage w; alerts := l; console := console w;
     statsScreen := statsScreen w; photoScreen := photoScreen w;
     homeScreen := homeScreen w |}.

Definition with_console (l : list jsstring) (w : World) : World :=
  {| storage := storage w; alerts := alerts w; console := l;
     statsScreen := statsScreen w; photoScreen := photoScreen w;
     homeScreen := homeScreen w |}.

Definition with_statsScreen (s : StatsState) (w : World) : World :=
  {| storage := storage w; alerts := alerts w; console := console w;
     statsScreen := s; photoScreen := photoScreen w;
     homeScreen := homeScreen w |}.

Definition with_photoScreen (s : PhotoState) (w : World) : World :=
  {| storage := storage w; alerts := alerts w; console := console w;
     statsScreen := statsScreen w; photoScreen := s;
     homeScreen := homeScreen w |}.

Definition with_homeScreen (s : HomeState) (w : World) : World :=
  {| storage := storage w; alerts := alerts w; console := console w;
     statsScreen := statsScreen w; photoScreen := photoScreen w;
     homeScreen := s |}.

(* ================================================================== *)
(** * Computations: state and exceptions *)
(* ================================================================== *)

Inductive Error := SyntaxError | StorageError.

(** The result of running a function body: it returns, or it throws; in both
    cases the effects made so far stay. *)
Inductive outcome (A : Type) : Type :=
| Returned (a : A) (w : World)
| Thrown (e : Error) (w : World).

Definition M (A : Type) : Type := World -> outcome A.

Definition ret {A} (a : A) : M A := fun w => Returned a w.

Definition throw {A} (e : Error) : M A := fun w => Thrown A e w.

Definition bind {A B} (m : M A) (k : A -> M B) : M B :=
  fun w =>
    match m w with
    | Returned a w' => k a w'
    | Thrown _ e w' => Thrown B e w'
    end.

(** [try { m } catch (error) { h error }]. *)
Definition try_catch {A} (m : M A) (h : Error -> M A) : M A :=
  fun w =>
    match m w with
    | Returned a w' => Returned a w'
    | Thrown _ e w' => h e w'
    end.

Definition final {A} (o : outcome A) : World :=
  match o with
  | Returned _ w => w
  | Thrown _ _ w => w
  end.

Definition returns {A} (o : outcome A) : bool :=
  match o with
  | Returned _ _ => true
  | Thrown _ _ _ => false
  end.

Declare Scope js_scope.
Delimit Scope js_scope with js.
Notation "x <- m ;; k" := (bind m (fun x => k))
  (at level 61, m at next level, right associativity) : js_scope.
Notation "m ;; k" := (bind m (fun _ => k))
  (at level 61, right associativity) : js_scope.
Local Open Scope js_scope.

(** ** The platform calls *)

Definition item {A} (k : Key A) (s : AsyncStorage) : option (Stored A) :=
  match k in Key T return option (Stored T) with
  | activities => item_activities s
  | photos => item_photos s
  end.

Definition put {A} (k : Key A) (v : option (Stored A)) (s : AsyncStorage)
  : AsyncStorage :=
  match k in Key T return option (Stored T) -> AsyncStorage with
  | activities => fun v =>
      {| item_activities := v; item_photos := item_photos s;
         reachable := reachable s |}
  | photos => fun v =>
      {| item_activities := item_activities s; item_photos := v;
         reachable := reachable s |}
  end v.

(** [AsyncStorage.getItem(key)]. *)
Definition getItem {A} (k : Key A) : M (option (Stored A)) :=
  fun w =>
    if reachable (storage w) then Returned (item k (storage w)) w
    else Thrown _ StorageError w.

(** [AsyncStorage.setItem(key, text)]. *)
Definition setItem {A} (k : Key A) (text : Stored A) : M unit :=
  fun w =>
    if reachable (storage w)
    then Returned tt (with_storage (put k (Some text) (storage w)) w)
    else Thrown _ StorageError w.

(** [AsyncStorage.multiRemove(['activities', 'photos'])]. *)
Definition multiRemove_activities_photos : M unit :=
  fun w =>
    if reachable (storage w)
    then Returned tt
           (with_storage (put photos None (put activities None (storage w))) w)
    else Thrown _ StorageError w.

(** Truthiness of what [getItem] resolved to: [null] and the empty string
    are falsy. *)
Definition truthy {A} (data : option (Stored A)) : bool :=
  match data with
  | None => false
  | Some EmptyText => false
  | Some _ => true
  end.

(** [JSON.parse(text)]. *)
Definition JSON_parse {A} (text : Stored A) : M (list A) :=
  match text with
  | JsonText l => ret l
  | EmptyText => throw SyntaxError
  | MalformedText => throw SyntaxError
  end.

Definition JSON_stringify {A} (l : list A) : Stored A := JsonText l.

(** [data ? JSON.parse(data) : []]. *)
Definition parse_or_empty {A} (data : option (Stored A)) : M (list A) :=
  match data with
  | Some text => if truthy data then JSON_parse text else ret []
  | None => ret []
  end.

Definition Alert_alert (t m : jsstring) : M unit :=
  fun w => Returned tt (with_alerts (alerts w ++ [{| title := t; message := m |}]) w).

Definition console_error (m : jsstring) : M unit :=
  fun w => Returned tt (with_console (console w ++ [m]) w).

(** ** Local calendar

    [toDateString t] identifies the local calendar day of the instant [t]
    (the text "Mon Nov 02 2026" names one day; here the day's number), and
    [minusDays t k] is the instant [d.setDate(d.getDate() - k)] leaves in a
    [Date] that held [t].  That is the same local clock time [k] calendar
    days earlier when that clock time exists on that day; when the zone
    skips it, the [Date] holds a later instant, which may belong to the next
    local day.  Nothing is assumed of the two functions: a property that
    needs [setDate] to land on the intended day says so. *)
Class Calendar := {
  toDateString : Z -> Z;
  minusDays : Z -> Z -> Z
}.

Definition msPerDay : Z := 86400000.


(** A zone at a fixed offset of [tz] milliseconds from UTC. *)
Definition fixedOffset (tz : Z) : Calendar :=
  {| toDateString := fun t => (t + tz) / msPerDay;
     minusDays := fun t k => t - k * msPerDay |}.





(* ================================================================== *)
(** * AddActivityScreen *)
(* ================================================================== *)

Module AddActivityScreen.

Record CategoryInfo := { name : jsstring; points : Z }.

(** The Category Table. *)
Definition categories : list CategoryInfo :=
  [ {| name := js "Energy Saving"; points := 20 |};
    {| name := js "Transportation"; points := 15 |};
    {| name := js "Recycling"; points := 10 |};
    {| name := js "Water Conservation"; points := 12 |};
    {| name := js "Food Waste Reduction"; points := 8 |};
    {| name := js "Other"; points := 5 |} ].

Definition basePoints (category : jsstring) : Z :=
  let categoryInfo := find (fun cat => streq (name cat) category) categories in
  match categoryInfo with
  | Some info => points info
  | None => 5
  end.

Definition durationBonus (duration : jsstring) : Z :=
  num_or_0 (parseInt duration).

Definition calculatePoints (category duration : jsstring) : Z :=
  basePoints category + Z.min (durationBonus duration) 30.

Definition newActivity (description category duration notes : jsstring)
    (dateNow newDate : Z) : Activity.t :=
  {| Activity.id := Number_toString dateNow;
     Activity.description := trim description;
     Activity.category := category;
     Activity.duration := trim duration;
     Activity.notes := trim notes;
     Activity.points := calculatePoints category duration;
     Activity.timestamp := newDate |}.

Definition validationMessage : Alert :=
  {| title := js "Error"; message := js "Please fill in description and category" |}.

Definition successMessage (earned : Z) : Alert :=
  {| title := js "Success!";
     message := js "Activity saved! You earned " ++ Number_toString earned
                ++ js " points! " ++ [55356%N; 57225%N] |}.

(** [handleSaveActivity] on the form fields; [dateNow] and [newDate] are what
    [Date.now()] and [new Date()] return during the call. *)
Definition handleSaveActivity (description category duration notes : jsstring)
    (dateNow newDate : Z) : M unit :=
  if negb (truthy_str (trim description)) || negb (truthy_str category) then
    Alert_alert (title validationMessage) (message validationMessage)
  else
    try_catch
      (existingData <- getItem activities ;;
       acts <- parse_or_empty existingData ;;
       let act := newActivity description category duration notes dateNow newDate in
       let acts := acts ++ [act] in
       setItem activities (JSON_stringify acts) ;;
       Alert_alert (title (successMessage (Activity.points act)))
                   (message (successMessage (Activity.points act))))
      (fun _ => Alert_alert (js "Error") (js "Failed to save activity")).

End AddActivityScreen.

(* ================================================================== *)
(** * PhotoScreen *)
(* ================================================================== *)

Module PhotoScreen.

Definition setPhotos (l : list Photo.t) : M unit :=
  fun w => Returned tt (with_photoScreen {| photoList := l |} w).

(** [(a, b) => new Date(b.timestamp).getTime() - new Date(a.timestamp).getTime()]. *)
Definition newestFirst (a b : Photo.t) : Z :=
  Photo.timestamp b - Photo.timestamp a.

Definition loadPhotos : M unit :=
  try_catch
    (photosData <- getItem photos ;;
     photosList <- parse_or_empty photosData ;;
     setPhotos (Array_sort newestFirst photosList))
    (fun _ => console_error (js "Error loading photos:")).

Definition placeholder : jsstring := js "Eco-friendly activity".

Definition newPhoto (photoUri description : jsstring) (dateNow newDate : Z)
  : Photo.t :=
  {| Photo.id := Number_toString dateNow;
     Photo.uri := photoUri;
     Photo.description :=
       if truthy_str description then description else placeholder;
     Photo.timestamp := newDate |}.

Definition savedMessage : jsstring :=
  js "Photo saved successfully! " ++ [240%N; 376%N; 8220%N; 184%N].

Definition savePhoto (photoUri description : jsstring) (dateNow newDate : Z)
  : M unit :=
  try_catch
    (let photo := newPhoto photoUri description dateNow newDate in
     existingPhotos <- getItem photos ;;
     photosList <- parse_or_empty existingPhotos ;;
     let photosList := photosList ++ [photo] in
     setItem photos (JSON_stringify photosList) ;;
     setPhotos (Array_sort newestFirst photosList) ;;
     Alert_alert (js "Success!") savedMessage)
    (fun _ => Alert_alert (js "Error") (js "Failed to save photo")).

(** The modal's save button: the caption typed in the modal goes to
    [savePhoto] as it is. *)
Definition handleSavePhotoWithDescription (newPhotoUri photoDescription : jsstring)
    (dateNow newDate : Z) : M unit :=
  if truthy_str newPhotoUri
  then savePhoto newPhotoUri photoDescription dateNow newDate
  else ret tt.

End PhotoScreen.

(* ================================================================== *)
(** * StatsScreen *)
(* ================================================================== *)

Module StatsScreen.
Section WithCalendar.
Context {cal : Calendar}.

Definition setActivities (l : list Activity.t) : M unit :=
  fun w =>
    let s := statsScreen w in
    Returned tt (with_statsScreen
      {| stats := stats s; stats_activities := l;
         categoryStats := categoryStats s |} w).

Definition setCategoryStats (o : JSObject) : M unit :=
  fun w =>
    let s := statsScreen w in
    Returned tt (with_statsScreen
      {| stats := stats s; stats_activities := stats_activities s;
         categoryStats := o |} w).

Definition setStats (v : Stats.t) : M unit :=
  fun w =>
    let s := statsScreen w in
    Returned tt (with_statsScreen
      {| stats := v; stats_activities := stats_activities s;
         categoryStats := categoryStats s |} w).

(** [Array.from(new Set(l))]: the distinct elements, in order of first
    occurrence. *)
Fixpoint Array_from_Set (l : list Z) : list Z :=
  match l with
  | [] => []
  | x :: l' => x :: filter (fun y => negb (y =? x)) (Array_from_Set l')
  end.

Definition includes (l : list Z) (d : Z) : bool := existsb (Z.eqb d) l.

Definition uniqueDates (acts : list Activity.t) : list Z :=
  Array_sort (fun a b => b - a)
    (Array_from_Set (List.map (fun a => toDateString (Activity.timestamp a)) acts)).

(** The [for] loop of [calculateStreak], [n] iterations left. *)
Fixpoint streakLoop (dates : list Z) (today : Z) (n : nat) (i streak : Z) : Z :=
  match n with
  | O => streak
  | S n' =>
      if i <? 30 then
        let checkDate := minusDays today i in
        let dateString := toDateString checkDate in
        if includes dates dateString then streakLoop dates today n' (i + 1) (streak + 1)
        else if i >? 0 then streak
        else streakLoop dates today n' (i + 1) streak
      else streak
  end.

(** [calculateStreak(activities)]; [today] is what [new Date()] returns. *)
Definition calculateStreak (acts : list Activity.t) (today : Z) : Z :=
  if Nat.eqb (List.length acts) 0 then 0
  else streakLoop (uniqueDates acts) today 30 0 0.

Definition sumPoints (l : list Activity.t) : Z :=
  fold_left (fun sum activity => sum + Activity.points activity) l 0.

(** The category breakdown built by the [forEach]. *)
Definition categoryBreakdown (activityList : list Activity.t) : JSObject :=
  fold_left
    (fun cats activity =>
       obj_set cats (Activity.category activity)
         (num_or_0 (obj_get cats (Activity.category activity))
          + Activity.points activity))
    activityList [].

(** [Object.keys(categories).reduce((a, b) => categories[a] > categories[b] ? a : b, 'None')]. *)
Definition findBestCategory (cats : JSObject) : jsstring :=
  fold_left
    (fun a b => if js_gt (obj_get cats a) (obj_get cats b) then a else b)
    (Object_keys cats) (js "None").

Definition recentPoints (activityList : list Activity.t) (now : Z) : Z :=
  let sevenDaysAgo := minusDays now 7 in
  let recentActivities :=
    filter (fun activity => Activity.timestamp activity >=? sevenDaysAgo)
           activityList in
  sumPoints recentActivities.

Definition averageDailyOf (activityList : list Activity.t) (now : Z) : Z :=
  Math_round (inject_Z (recentPoints activityList now) / 7)%Q.

(** [loadStatsData]; [today] is the [new Date()] of [calculateStreak], [now]
    the one of the seven-day window. *)
Definition loadStatsData (today now : Z) : M unit :=
  try_catch
    (activitiesData <- getItem activities ;;
     activityList <- parse_or_empty activitiesData ;;
     setActivities activityList ;;
     if Nat.eqb (List.length activityList) 0 then ret tt
     else
       let total := sumPoints activityList in
       let cats := categoryBreakdown activityList in
       setCategoryStats cats ;;
       let best := findBestCategory cats in
       let streak := calculateStreak activityList today in
       let average := averageDailyOf activityList now in
       setStats {| Stats.totalPoints := total;
                   Stats.totalActivities := Z.of_nat (List.length activityList);
                   Stats.averageDaily := average;
                   Stats.bestCategory := best;
                   Stats.currentStreak := streak |})
    (fun _ => console_error (js "Error loading stats:")).

(** The "Clear All" button of [clearAllData].  [loadStatsData] never
    rejects, so running it to completion before the alert leaves the same
    final state as the unawaited call. *)
Definition clearAllData_onPress (today now : Z) : M unit :=
  try_catch
    (multiRemove_activities_photos ;;
     loadStatsData today now ;;
     Alert_alert (js "Success") (js "All data has been cleared"))
    (fun _ => Alert_alert (js "Error") (js "Failed to clear data")).


Definition firstActivityBadge : jsstring := js "First Activity! " ++ [55356%N; 57225%N].
Definition club50Badge : jsstring := js "50 Points Club! " ++ [11088%N].
Definition club100Badge : jsstring := js "100 Points Club! " ++ [55356%N; 57119%N].
Definition streak3Badge : jsstring := js "3-Day Streak! " ++ [55357%N; 56613%N].
Definition weekWarriorBadge : jsstring := js "Week Warrior! " ++ [55357%N; 56613%N; 55357%N; 56613%N].
Definition noAchievementsText : jsstring :=
  js "Complete activities to unlock achievements!".

(** The texts the "Achievements" section renders, top to bottom. *)
Definition achievements (s : StatsState) : list jsstring :=
  (if Stats.totalActivities (stats s) >=? 1 then [firstActivityBadge] else [])
  ++ (if Stats.totalPoints (stats s) >=? 50 then [club50Badge] else [])
  ++ (if Stats.totalPoints (stats s) >=? 100 then [club100Badge] else [])
  ++ (if Stats.currentStreak (stats s) >=? 3 then [streak3Badge] else [])
  ++ (if Stats.currentStreak (stats s) >=? 7 then [weekWarriorBadge] else [])
  ++ (if Nat.eqb (List.length (Object_keys (categoryStats s))) 0
      then [noAchievementsText] else []).

(** The text of the export summary; [localeDate] is what
    [new Date().toLocaleDateString()] returns and [location] the screen's
    location text. *)
Definition exportSummary (st : Stats.t) (photoCount : nat)
    (localeDate location : jsstring) : jsstring :=
  [55357%N; 56522%N] ++ js " Total Activities: "
  ++ Number_toString (Stats.totalActivities st)
  ++ [10%N; 11088%N] ++ js " Total Points: "
  ++ Number_toString (Stats.totalPoints st)
  ++ [10%N; 55357%N; 56568%N] ++ js " Photos: "
  ++ Number_toString (Z.of_nat photoCount)
  ++ [10%N; 55357%N; 56517%N] ++ js " Exported: " ++ localeDate
  ++ [10%N; 55357%N; 56525%N] ++ js " Location: " ++ location.

(** [exportData]; the statistics are those on the screen. *)
Definition exportData (localeDate location : jsstring) : M unit :=
  try_catch
    (photosData <- getItem photos ;;
     photosList <- parse_or_empty photosData ;;
     fun w =>
       Alert_alert (js "Export Data Summary")
         (exportSummary (stats (statsScreen w)) (List.length photosList)
            localeDate location) w)
    (fun _ => Alert_alert (js "Error") (js "Failed to export data")).


End WithCalendar.
End StatsScreen.

(* ================================================================== *)
(** * HomeScreen *)
(* ================================================================== *)

Module HomeScreen.

(** [getMotivationMessage], on the [todayPoints] state. *)
Definition getMotivationMessage (todayPoints : Z) : jsstring :=
  if todayPoints >=? 50 then js "Amazing work today! " ++ [240%N; 376%N; 338%N; 376%N]
  else if todayPoints >=? 20 then js "Great progress! " ++ [240%N; 376%N; 8216%N]
  else if todayPoints >? 0 then js "Good start! Keep going! " ++ [240%N; 376%N; 8217%N; 170%N]
  else js "Ready to make an impact? " ++ [240%N; 376%N; 338%N; 177%N].

Section WithCalendar.
Context {cal : Calendar}.

Definition setTotalPoints (v : Z) : M unit :=
  fun w =>
    let s := homeScreen w in
    Returned tt (with_homeScreen
      {| totalPoints := v; todayPoints := todayPoints s;
         recentActivities := recentActivities s |} w).

Definition setTodayPoints (v : Z) : M unit :=
  fun w =>
    let s := homeScreen w in
    Returned tt (with_homeScreen
      {| totalPoints := totalPoints s; todayPoints := v;
         recentActivities := recentActivities s |} w).

Definition setRecentActivities (l : list Activity.t) : M unit :=
  fun w =>
    let s := homeScreen w in
    Returned tt (with_homeScreen
      {| totalPoints := totalPoints s; todayPoints := todayPoints s;
         recentActivities := l |} w).

Definition loadData (now : Z) : M unit :=
  try_catch
    (activitiesData <- getItem activities ;;
     acts <- parse_or_empty activitiesData ;;
     let total := StatsScreen.sumPoints acts in
     setTotalPoints total ;;
     let today := toDateString now in
     let todayActivities :=
       filter (fun activity => toDateString (Activity.timestamp activity) =? today)
              acts in
     let todayTotal := StatsScreen.sumPoints todayActivities in
     setTodayPoints todayTotal ;;
     let recent :=
       firstn 5 (Array_sort
                   (fun a b => Activity.timestamp b - Activity.timestamp a) acts) in
     setRecentActivities recent)
    (fun _ => console_error (js "Error loading data:")).

End WithCalendar.
End HomeScreen.

(* ================================================================== *)
(** * Notions used to state the properties *)
(* ================================================================== *)

(** The records a stored text stands for: none at all when the key is absent
    or empty, and nothing ([None]) when the text does not parse. *)
Definition readable {A} (data : option (Stored A)) : option (list A) :=
  match data with
  | None => Some []
  | Some EmptyText => Some []
  | Some (JsonText l) => Some l
  | Some MalformedText => None
  end.

(** A reachable store with nothing in it. *)
Definition emptyStorage : AsyncStorage :=
  {| item_activities := None; item_photos := None; reachable := true |}.

(** A reachable store whose activities text does not parse. *)
Definition malformedActivities : AsyncStorage :=
  {| item_activities := Some MalformedText; item_photos := None; reachable := true |}.

(** Ten days after the epoch, in milliseconds. *)
Definition tenDays : Z := 10 * msPerDay.

(** Some record of the log is in category [c]. *)
Definition logs (c : jsstring) (l : list Activity.t) : bool :=
  existsb (fun a => streq (Activity.category a) c) l.

(** The names of the Category Table, in declaration order. *)
Definition tableNames : list jsstring :=
  List.map AddActivityScreen.name AddActivityScreen.categories.

(** An Energy Saving activity recorded one second into day [d] (UTC). *)
Definition loggedOnDay (d : Z) : Activity.t :=
  AddActivityScreen.newActivity (js "Turned off the lights") (js "Energy Saving")
    (js "") (js "") (d * msPerDay + 1000) (d * msPerDay + 1000).

(** The integer parse of a text, a failed parse counting as 0. *)
Definition parsedDuration (duration : jsstring) : Z :=
  match parseInt duration with
  | Some n => n
  | None => 0
  end.

(** The required fields of the activity form. *)
Inductive Field := DescriptionField | CategoryField.

Definition missingFields (description category : jsstring) : list Field :=
  (if truthy_str (trim description) then [] else [DescriptionField])
  ++ (if truthy_str category then [] else [CategoryField]).

(** Sum of the points of a list of activities. *)
Fixpoint totalOf (l : list Activity.t) : Z :=
  match l with
  | [] => 0
  | a :: l' => Activity.points a + totalOf l'
  end.

(** Points logged under one category. *)
Definition pointsIn (c : jsstring) (l : list Activity.t) : Z :=
  totalOf (filter (fun a => streq (Activity.category a) c) l).

(** The categories of a log, each once, in the order in which they were
    first logged. *)
Fixpoint firstLogged (l : list Activity.t) : list jsstring :=
  match l with
  | [] => []
  | a :: l' =>
      Activity.category a
      :: filter (fun c => negb (streq c (Activity.category a))) (firstLogged l')
  end.





(** A store with the given activities and no photos. *)
Definition storeOf (acts : list Activity.t) : AsyncStorage :=
  {| item_activities := Some (JsonText acts); item_photos := None;
     reachable := true |}.

(** A store that rejects every call. *)
Definition unreachableStorage : AsyncStorage :=
  {| item_activities := None; item_photos := None; reachable := false |}.

(** The least integer below which a double no longer holds every integer. *)
Definition minSafeBound : Z := - 2 ^ 53.


Section ActiveDays.
Context {cal : Calendar}.

(** Some activity of the log was created on local day [d]. *)
Definition active (l : list Activity.t) (d : Z) : bool :=
  existsb (fun a => toDateString (Activity.timestamp a) =? d) l.

(** Each of the 30 dates the streak loop builds from [today] falls on the
    local day it aims at: [setDate(getDate() - i)] lands [i] days back. *)
Definition landsOnDays (today : Z) : Prop :=
  forall i, 0 <= i < 30 ->
    toDateString (minusDays today i) = toDateString today - i.

End ActiveDays.

(* ================================================================== *)
(** * Basic facts *)
(* ================================================================== *)

Lemma streq_eq (a b : jsstring) : streq a b = true <-> a = b.
Proof.
  revert b; induction a as [|x a IH]; intros [|y b]; simpl;
    try (split; [discriminate | discriminate]); try tauto.
  rewrite andb_true_iff, N.eqb_eq, IH.
  split; [intros [-> ->]; reflexivity | intros E; injection E; auto].
Qed.

Lemma streq_refl (a : jsstring) : streq a a = true.
Proof. apply streq_eq; reflexivity. Qed.


Lemma streq_sym (a b : jsstring) : streq a b = streq b a.
Proof.
  destruct (streq a b) eqn:E.
  - apply streq_eq in E; subst; symmetry; apply streq_refl.
  - destruct (streq b a) eqn:E'; [|reflexivity].
    apply streq_eq in E'; subst. rewrite streq_refl in E; discriminate.
Qed.

Lemma truthy_str_true (s : jsstring) : truthy_str s = true <-> s <> [].
Proof. destruct s; simpl; split; congruence. Qed.

Lemma num_or_0_parsed (duration : jsstring) :
  num_or_0 (parseInt duration) = parsedDuration duration.
Proof.
  unfold num_or_0, parsedDuration.
  destruct (parseInt duration) as [n|]; [|reflexivity].
  destruct (Z.eqb_spec n 0); congruence.
Qed.

Lemma parse_or_empty_readable {A} (d : option (Stored A)) (l : list A) (w : World) :
  readable d = Some l -> parse_or_empty d w = Returned l w.
Proof.
  destruct d as [[l'| |]|]; simpl; intros E; inversion E; reflexivity.
Qed.

(** A name of the Category Table selects that entry's points. *)
Lemma basePoints_table (info : AddActivityScreen.CategoryInfo) :
  In info AddActivityScreen.categories ->
  AddActivityScreen.basePoints (AddActivityScreen.name info)
  = AddActivityScreen.points info.
Proof.
  unfold AddActivityScreen.categories; simpl.
  intros H; repeat (destruct H as [<- | H]; [reflexivity|]); contradiction.
Qed.

(* ================================================================== *)
(** * Recording an activity *)
(* ================================================================== *)

Section RecordActivity.
Import AddActivityScreen.

Variables (description category duration notes : jsstring).
Variables (dateNow newDate : Z).

(** What a call that passes validation, on a reachable store whose
    activities parse to [old], does. *)
Lemma handleSaveActivity_success (w : World) (old : list Activity.t) :
  trim description <> [] ->
  category <> [] ->
  reachable (storage w) = true ->
  readable (item activities (storage w)) = Some old ->
  let act := newActivity description category duration notes dateNow newDate in
  handleSaveActivity description category duration notes dateNow newDate w
  = Returned tt
      (with_alerts (alerts w ++ [successMessage (Activity.points act)])
         (with_storage
            (put activities (Some (JsonText (old ++ [act]))) (storage w)) w)).
Proof.
  intros Hd Hc Hr Hold act.
  unfold handleSaveActivity.
  apply truthy_str_true in Hd, Hc. rewrite Hd, Hc. simpl.
  destruct w as [[ia ip r] al co ss ps hs]; simpl in Hr, Hold; subst r.
  unfold try_catch, bind, getItem; simpl.
  rewrite (parse_or_empty_readable _ _ Hold).
  reflexivity.
Qed.

(** A call that fails validation only raises the fixed alert. *)
Lemma handleSaveActivity_invalid (w : World) :
  trim description = [] \/ category = [] ->
  handleSaveActivity description category duration notes dateNow newDate w
  = Returned tt (with_alerts (alerts w ++ [validationMessage]) w).
Proof.
  intros H. unfold handleSaveActivity.
  assert (E : negb (truthy_str (trim description)) || negb (truthy_str category) = true).
  { destruct H as [-> | ->]; simpl; [reflexivity | apply orb_true_r]. }
  rewrite E. reflexivity.
Qed.

End RecordActivity.

(** C1 (as the code has it).  For a call of [handleSaveActivity] that passes
    validation and reaches a store whose activities parse, with a duration
    text whose parse is not below -2^53 (the range in which the code's double
    is the exact integer; above it the cap at 30 makes the value immaterial),
    exactly one record is appended, and its points are the category's base
    points plus [min(parsedDuration, 30)], a failed parse counting as 0.  The
    base points of a name of the Category Table are that entry's points, and
    5 for any other text.  When the parsed duration is not negative this is
    [base + min(max(parsedDuration, 0), 30)]; the duration never adds more
    than 30. *)
Theorem C1_points_of_recorded_activity
    (w : World) (old : list Activity.t)
    (description category duration notes : jsstring) (dateNow newDate : Z) :
  trim description <> [] ->
  category <> [] ->
  reachable (storage w) = true ->
  readable (item activities (storage w)) = Some old ->
  minSafeBound <= parsedDuration duration ->
  let w' := final (AddActivityScreen.handleSaveActivity
                     description category duration notes dateNow newDate w) in
  let base := AddActivityScreen.basePoints category in
  exists act,
    item activities (storage w') = Some (JsonText (old ++ [act]))
    /\ Activity.points act = base + Z.min (parsedDuration duration) 30
    /\ (forall info, In info AddActivityScreen.categories ->
          AddActivityScreen.name info = category ->
          base = AddActivityScreen.points info)
    /\ ((forall info, In info AddActivityScreen.categories ->
           AddActivityScreen.name info <> category) ->
        base = 5)
    /\ (0 <= parsedDuration duration ->
          Activity.points act
          = base + Z.min (Z.max (parsedDuration duration) 0) 30)
    /\ Activity.points act - base <= 30.
Proof.
  intros Hd Hc Hr Hold _ w' base.
  exists (AddActivityScreen.newActivity description category duration notes dateNow newDate).
  assert (P : Activity.points
                (AddActivityScreen.newActivity description category duration notes
                   dateNow newDate)
              = base + Z.min (parsedDuration duration) 30).
  { simpl. unfold AddActivityScreen.calculatePoints, AddActivityScreen.durationBonus.
    rewrite num_or_0_parsed. reflexivity. }
  repeat split.
  - unfold w'. erewrite handleSaveActivity_success by eassumption.
    reflexivity.
  - exact P.
  - intros info Hin <-. apply basePoints_table, Hin.
  - intros Hnot. unfold base, AddActivityScreen.basePoints.
    destruct (find _ AddActivityScreen.categories) as [info|] eqn:F; [|reflexivity].
    apply find_some in F. destruct F as [Hin E].
    apply streq_eq in E. destruct (Hnot info Hin E).
  - intros Hpos. rewrite P. f_equal. lia.
  - rewrite P. lia.
Qed.

Lemma C1_points_of_recorded_activity_witness :
  let w := freshWorld emptyStorage in
  trim (js "Rode the bus") <> []
  /\ js "Transportation" <> []
  /\ minSafeBound <= parsedDuration (js "45")
  /\ exists act,
       item activities
         (storage (final (AddActivityScreen.handleSaveActivity
                            (js "Rode the bus") (js "Transportation") (js "45")
                            (js "") 1000 1001 w)))
       = Some (JsonText ([] ++ [act]))
       /\ Activity.points act = 15 + 30.
Proof.
  intros w.
  assert (Hd : trim (js "Rode the bus") <> []) by (vm_compute; discriminate).
  assert (Hc : js "Transportation" <> []) by (vm_compute; discriminate).
  assert (Hb : minSafeBound <= parsedDuration (js "45"))
    by (vm_compute; discriminate).
  split; [exact Hd|]. split; [exact Hc|]. split; [exact Hb|].
  destruct (@C1_points_of_recorded_activity w [] (js "Rode the bus")
              (js "Transportation") (js "45") (js "") 1000 1001
              Hd Hc eq_refl eq_refl Hb) as (act & Hs & Hp & _).
  exists act. split; [exact Hs | exact Hp].
Defined.

(** C1, counterexample.  The duration text "-5" parses to -5, which is not
    raised to 0: a Recycling activity (base 10) is stored with 5 points,
    where the claim's formula gives 10. *)
Lemma C1_negative_duration_counterexample :
  let w' := final (AddActivityScreen.handleSaveActivity
                     (js "Sorted the bottles") (js "Recycling") (js "-5") (js "")
                     1000 1001 (freshWorld emptyStorage)) in
  exists act,
    item activities (storage w') = Some (JsonText [act])
    /\ parsedDuration (js "-5") = -5
    /\ AddActivityScreen.basePoints (js "Recycling") = 10
    /\ Activity.points act = 5
    /\ Activity.points act
       <> AddActivityScreen.basePoints (js "Recycling")
          + Z.min (Z.max (parsedDuration (js "-5")) 0) 30.
Proof.
  eexists. split; [vm_compute; reflexivity|].
  repeat split; vm_compute; congruence.
Qed.

(** C6 (as the code has it).  A call of [handleSaveActivity] whose
    description is empty after trimming, or whose category is empty, returns
    after raising one alert, the fixed text "Please fill in description and
    category", which is the same whichever field is missing.  The store, the
    console and the screens are exactly as before; this holds on an
    unreachable store too, where any call on the store would have raised the
    "Failed to save activity" alert instead. *)
Theorem C6_validation_failure_leaves_store
    (w : World) (description category duration notes : jsstring)
    (dateNow newDate : Z) :
  trim description = [] \/ category = [] ->
  let o := AddActivityScreen.handleSaveActivity
             description category duration notes dateNow newDate w in
  returns o = true
  /\ storage (final o) = storage w
  /\ alerts (final o) = alerts w ++ [AddActivityScreen.validationMessage]
  /\ message AddActivityScreen.validationMessage
     = js "Please fill in description and category"
  /\ console (final o) = console w
  /\ statsScreen (final o) = statsScreen w
  /\ photoScreen (final o) = photoScreen w
  /\ homeScreen (final o) = homeScreen w.
Proof.
  intros H o. unfold o.
  rewrite handleSaveActivity_invalid by exact H.
  simpl. repeat split; reflexivity.
Qed.

Lemma C6_validation_failure_leaves_store_witness :
  let w := freshWorld emptyStorage in
  let o := AddActivityScreen.handleSaveActivity
             (js "   ") (js "Recycling") (js "10") (js "") 1000 1001 w in
  (trim (js "   ") = [] \/ js "Recycling" = [])
  /\ storage (final o) = storage w
  /\ alerts (final o) = alerts w ++ [AddActivityScreen.validationMessage].
Proof.
  intros w o.
  assert (H : trim (js "   ") = [] \/ js "Recycling" = []) by (left; reflexivity).
  split; [exact H|].
  destruct (@C6_validation_failure_leaves_store w (js "   ") (js "Recycling")
              (js "10") (js "") 1000 1001 H) as (_ & Hs & Ha & _).
  split; [exact Hs | exact Ha].
Defined.

(** C6, counterexample.  A form with only the description missing and a form
    with only the category missing raise the very same alert: the report
    does not tell which field is missing. *)
Lemma C6_same_report_counterexample :
  let w := freshWorld emptyStorage in
  let noDescription :=
    AddActivityScreen.handleSaveActivity (js "") (js "Recycling") (js "") (js "") 1000 1001 w in
  let noCategory :=
    AddActivityScreen.handleSaveActivity (js "Walked to work") (js "") (js "") (js "") 1000 1001 w in
  missingFields (js "") (js "Recycling") = [DescriptionField]
  /\ missingFields (js "Walked to work") (js "") = [CategoryField]
  /\ alerts (final noDescription) = alerts (final noCategory)
  /\ alerts (final noDescription) = [AddActivityScreen.validationMessage].
Proof.
  repeat split; vm_compute; reflexivity.
Qed.

(* ================================================================== *)
(** * Recording a photo *)
(* ================================================================== *)

Lemma savePhoto_success (w : World) (old : list Photo.t)
    (photoUri description : jsstring) (dateNow newDate : Z) :
  reachable (storage w) = true ->
  readable (item photos (storage w)) = Some old ->
  let photo := PhotoScreen.newPhoto photoUri description dateNow newDate in
  PhotoScreen.savePhoto photoUri description dateNow newDate w
  = Returned tt
      (with_alerts
         (alerts w ++ [{| title := js "Success!"; message := PhotoScreen.savedMessage |}])
         (with_photoScreen
            {| photoList := Array_sort PhotoScreen.newestFirst (old ++ [photo]) |}
            (with_storage
               (put photos (Some (JsonText (old ++ [photo]))) (storage w)) w))).
Proof.
  intros Hr Hold photo.
  destruct w as [[ia ip r] al co ss ps hs]; simpl in Hr, Hold; subst r.
  unfold PhotoScreen.savePhoto, try_catch, bind, getItem; simpl.
  rewrite (parse_or_empty_readable _ _ Hold).
  reflexivity.
Qed.

(** C8 (as the code has it).  A successful [savePhoto] appends one record; its
    caption is the placeholder "Eco-friendly activity" when the caption given
    is the empty string, and the caption given, untrimmed, in every other
    case. *)
Theorem C8_caption_defaults_when_empty
    (w : World) (old : list Photo.t)
    (photoUri description : jsstring) (dateNow newDate : Z) :
  reachable (storage w) = true ->
  readable (item photos (storage w)) = Some old ->
  let w' := final (PhotoScreen.savePhoto photoUri description dateNow newDate w) in
  exists photo,
    item photos (storage w') = Some (JsonText (old ++ [photo]))
    /\ PhotoScreen.placeholder = js "Eco-friendly activity"
    /\ (description = [] -> Photo.description photo = PhotoScreen.placeholder)
    /\ (description <> [] -> Photo.description photo = description).
Proof.
  intros Hr Hold w'.
  exists (PhotoScreen.newPhoto photoUri description dateNow newDate).
  unfold w'. rewrite (savePhoto_success _ _ _ _ _ Hr Hold).
  destruct w as [[ia ip r] al co ss ps hs]; simpl.
  repeat split.
  - intros ->; reflexivity.
  - destruct description; [congruence | reflexivity].
Qed.

Lemma C8_caption_defaults_when_empty_witness :
  let w := freshWorld emptyStorage in
  exists photo,
    item photos
      (storage (final (PhotoScreen.savePhoto (js "file:///p1.jpg") (js "") 1000 1001 w)))
    = Some (JsonText ([] ++ [photo]))
    /\ Photo.description photo = js "Eco-friendly activity".
Proof.
  intros w.
  destruct (@C8_caption_defaults_when_empty w [] (js "file:///p1.jpg") (js "")
              1000 1001 eq_refl eq_refl) as (photo & Hs & Hp & He & _).
  exists photo. split; [exact Hs|].
  rewrite (He eq_refl). exact Hp.
Defined.

(** C8, counterexample.  A caption of two spaces is empty after trimming, yet
    it is stored as it is, not replaced by the placeholder. *)
Lemma C8_blank_caption_counterexample :
  let w' := final (PhotoScreen.handleSavePhotoWithDescription
                     (js "file:///p1.jpg") (js "  ") 1000 1001
                     (freshWorld emptyStorage)) in
  exists photo,
    item photos (storage w') = Some (JsonText [photo])
    /\ trim (js "  ") = []
    /\ Photo.description photo = js "  "
    /\ Photo.description photo <> PhotoScreen.placeholder.
Proof.
  eexists. split; [vm_compute; reflexivity|].
  repeat split; vm_compute; congruence.
Qed.

(* ================================================================== *)
(** * The two collections are written independently *)
(* ================================================================== *)

(** C10.  Whatever the starting state and the inputs, [handleSaveActivity]
    leaves the stored photos as they were and [savePhoto] leaves the stored
    activities as they were: the store after the call is the store before it
    with at most the call's own collection replaced.  In particular a
    successful call writes its own collection only. *)
Theorem C10_collections_are_independent
    (w : World) (description category duration notes photoUri caption : jsstring)
    (dateNow newDate : Z) :
  let afterActivity :=
    storage (final (AddActivityScreen.handleSaveActivity
                      description category duration notes dateNow newDate w)) in
  let afterPhoto :=
    storage (final (PhotoScreen.savePhoto photoUri caption dateNow newDate w)) in
  item photos afterActivity = item photos (storage w)
  /\ afterActivity = put activities (item activities afterActivity) (storage w)
  /\ item activities afterPhoto = item activities (storage w)
  /\ afterPhoto = put photos (item photos afterPhoto) (storage w).
Proof.
  destruct w as [[ia ip r] al co ss ps hs].
  cbv zeta.
  assert (Ha : exists v,
             storage (final (AddActivityScreen.handleSaveActivity
                               description category duration notes dateNow newDate
                               {| storage := {| item_activities := ia; item_photos := ip;
                                                reachable := r |};
                                  alerts := al; console := co; statsScreen := ss;
                                  photoScreen := ps; homeScreen := hs |}))
             = {| item_activities := v; item_photos := ip; reachable := r |}).
  { unfold AddActivityScreen.handleSaveActivity.
    destruct (negb (truthy_str (trim description)) || negb (truthy_str category));
      [eexists; reflexivity|].
    unfold try_catch, bind, getItem; simpl.
    destruct r; [|eexists; reflexivity].
    destruct ia as [[l| |]|]; eexists; reflexivity. }
  assert (Hp : exists v,
             storage (final (PhotoScreen.savePhoto photoUri caption dateNow newDate
                               {| storage := {| item_activities := ia; item_photos := ip;
                                                reachable := r |};
                                  alerts := al; console := co; statsScreen := ss;
                                  photoScreen := ps; homeScreen := hs |}))
             = {| item_activities := ia; item_photos := v; reachable := r |}).
  { unfold PhotoScreen.savePhoto, try_catch, bind, getItem; simpl.
    destruct r; [|eexists; reflexivity].
    destruct ip as [[l| |]|]; eexists; reflexivity. }
  destruct Ha as (va & ->). destruct Hp as (vp & ->).
  repeat split; reflexivity.
Qed.

(* ================================================================== *)
(** * Sorting newest first *)
(* ================================================================== *)

Section SortFacts.
Variable A : Type.

Lemma insert_Permutation (cmp : A -> A -> Z) (x : A) (l : list A) :
  Permutation (insert cmp x l) (x :: l).
Proof.
  induction l as [|y l IH]; simpl; [reflexivity|].
  destruct (cmp x y <=? 0); [reflexivity|].
  rewrite IH. apply perm_swap.
Qed.

Lemma Array_sort_Permutation (cmp : A -> A -> Z) (l : list A) :
  Permutation (Array_sort cmp l) l.
Proof.
  induction l as [|x l IH]; simpl; [reflexivity|].
  rewrite insert_Permutation. apply perm_skip, IH.
Qed.

Lemma Array_sort_In (cmp : A -> A -> Z) (l : list A) (x : A) :
  In x (Array_sort cmp l) <-> In x l.
Proof.
  split; apply Permutation_in;
    [|symmetry]; apply Array_sort_Permutation.
Qed.

(** Sorting by a key, largest key first. *)
Variable key : A -> Z.
Let byKeyDesc (a b : A) : Z := key b - key a.
Let geKey (a b : A) : Prop := key a >= key b.

Lemma insert_desc_sorted (x : A) (l : list A) :
  StronglySorted geKey l -> StronglySorted geKey (insert byKeyDesc x l).
Proof.
  induction 1 as [|y l Hs IH Hall]; simpl.
  - repeat constructor.
  - unfold byKeyDesc at 1. destruct (Z.leb_spec (key y - key x) 0) as [Hle|Hgt].
    + constructor; [constructor; assumption|].
      constructor; [unfold geKey; lia|].
      eapply Forall_impl; [|exact Hall]. unfold geKey; intros; lia.
    + constructor; [exact IH|].
      eapply Permutation_Forall; [symmetry; apply insert_Permutation|].
      constructor; [unfold geKey; lia | exact Hall].
Qed.

Lemma Array_sort_desc_sorted (l : list A) :
  StronglySorted geKey (Array_sort byKeyDesc l).
Proof.
  induction l as [|x l IH]; simpl; [constructor|].
  apply insert_desc_sorted, IH.
Qed.

Lemma insert_desc_filter (t : Z) (x : A) (l : list A) :
  filter (fun a => key a =? t) (insert byKeyDesc x l)
  = filter (fun a => key a =? t) (x :: l).
Proof.
  induction l as [|y l IH]; simpl; [reflexivity|].
  unfold byKeyDesc at 1. destruct (Z.leb_spec (key y - key x) 0) as [Hle|Hgt].
  - reflexivity.
  - simpl. rewrite IH. simpl.
    destruct (Z.eqb_spec (key x) t), (Z.eqb_spec (key y) t);
      try reflexivity; lia.
Qed.

(** Stability: the records with one and the same key keep their order. *)
Lemma Array_sort_desc_stable (t : Z) (l : list A) :
  filter (fun a => key a =? t) (Array_sort byKeyDesc l)
  = filter (fun a => key a =? t) l.
Proof.
  induction l as [|x l IH]; simpl; [reflexivity|].
  rewrite insert_desc_filter. simpl. rewrite IH. reflexivity.
Qed.

Lemma insert_desc_In (y p : A) (l : list A) :
  In p (insert byKeyDesc y l) <-> p = y \/ In p l.
Proof.
  split; intros H.
  - apply (Permutation_in _ (insert_Permutation byKeyDesc y l)) in H.
    destruct H as [<-|H]; auto.
  - apply (Permutation_in _ (Permutation_sym (insert_Permutation byKeyDesc y l))).
    destruct H as [->|H]; [left; reflexivity | right; exact H].
Qed.

Lemma insert_desc_before (y x : A) (l1 l2 : list A) :
  key y >= key x ->
  insert byKeyDesc y (l1 ++ x :: l2) = insert byKeyDesc y l1 ++ x :: l2.
Proof.
  intros Hy. induction l1 as [|p l1 IH]; simpl.
  - unfold byKeyDesc. destruct (Z.leb_spec (key x - key y) 0); [reflexivity | lia].
  - destruct (byKeyDesc y p <=? 0); [reflexivity|]. simpl. rewrite IH. reflexivity.
Qed.

Lemma insert_desc_after (y x : A) (l1 l2 : list A) :
  key y < key x ->
  (forall p, In p l1 -> key p >= key x) ->
  insert byKeyDesc y (l1 ++ x :: l2) = l1 ++ x :: insert byKeyDesc y l2.
Proof.
  intros Hy. induction l1 as [|p l1 IH]; intros Hl1; simpl.
  - unfold byKeyDesc at 1. destruct (Z.leb_spec (key x - key y) 0); [lia | reflexivity].
  - assert (Hp : key p >= key x) by (apply Hl1; left; reflexivity).
    unfold byKeyDesc at 1. destruct (Z.leb_spec (key p - key y) 0); [lia|].
    rewrite IH; [reflexivity|]. intros q Hq. apply Hl1. right; exact Hq.
Qed.

(** The element pushed last ends up after every element whose key is at
    least its own. *)
Lemma Array_sort_desc_last (old : list A) (x : A) :
  exists l1 l2,
    Array_sort byKeyDesc (old ++ [x]) = l1 ++ x :: l2
    /\ (forall p, In p l1 -> key p >= key x)
    /\ (forall p, In p l2 -> key p < key x).
Proof.
  induction old as [|y old (l1 & l2 & E & H1 & H2)]; simpl.
  - exists [], []. repeat split; intros p [].
  - rewrite E. destruct (Z_lt_ge_dec (key y) (key x)) as [Hlt|Hge].
    + exists l1, (insert byKeyDesc y l2).
      rewrite (@insert_desc_after y x l1 l2 Hlt H1).
      repeat split; [exact H1|].
      intros p Hp. apply insert_desc_In in Hp. destruct Hp as [->|Hp]; auto.
    + exists (insert byKeyDesc y l1), l2.
      rewrite (@insert_desc_before y x l1 l2 Hge).
      repeat split; [|exact H2].
      intros p Hp. apply insert_desc_In in Hp. destruct Hp as [->|Hp]; auto.
Qed.

End SortFacts.

Lemma loadPhotos_readable (w : World) (stored : list Photo.t) :
  reachable (storage w) = true ->
  readable (item photos (storage w)) = Some stored ->
  PhotoScreen.loadPhotos w
  = Returned tt
      (with_photoScreen
         {| photoList := Array_sort PhotoScreen.newestFirst stored |} w).
Proof.
  intros Hr Hs.
  destruct w as [[ia ip r] al co ss ps hs]; simpl in Hr, Hs; subst r.
  unfold PhotoScreen.loadPhotos, try_catch, bind, getItem; simpl.
  rewrite (parse_or_empty_readable _ _ Hs). reflexivity.
Qed.

(** C9 (as the code has it).  After a successful [savePhoto] the store holds
    the photos in insertion order, the new one last, and the screen shows a
    rearrangement of them that is ordered newest first; photos with equal
    timestamps are shown in insertion order, the earlier-inserted one first,
    so that the new photo comes after every photo at least as new as itself.
    [loadPhotos] shows the stored photos in the same way. *)
Theorem C9_photos_newest_first_stable
    (w : World) (old : list Photo.t)
    (photoUri description : jsstring) (dateNow newDate : Z) :
  reachable (storage w) = true ->
  readable (item photos (storage w)) = Some old ->
  let newer (p q : Photo.t) := Photo.timestamp p >= Photo.timestamp q in
  let at_ (t : Z) (p : Photo.t) := Photo.timestamp p =? t in
  let saved := final (PhotoScreen.savePhoto photoUri description dateNow newDate w) in
  let loaded := final (PhotoScreen.loadPhotos w) in
  (exists photo,
     Photo.timestamp photo = newDate
     /\ item photos (storage saved) = Some (JsonText (old ++ [photo]))
     /\ Permutation (photoList (photoScreen saved)) (old ++ [photo])
     /\ StronglySorted newer (photoList (photoScreen saved))
     /\ (forall t, filter (at_ t) (photoList (photoScreen saved))
                   = filter (at_ t) (old ++ [photo]))
     /\ exists before after,
          photoList (photoScreen saved) = before ++ photo :: after
          /\ (forall p, In p before -> Photo.timestamp p >= newDate)
          /\ (forall p, In p after -> Photo.timestamp p < newDate))
  /\ Permutation (photoList (photoScreen loaded)) old
  /\ StronglySorted newer (photoList (photoScreen loaded))
  /\ forall t, filter (at_ t) (photoList (photoScreen loaded)) = filter (at_ t) old.
Proof.
  intros Hr Hold newer at_ saved loaded.
  split.
  - exists (PhotoScreen.newPhoto photoUri description dateNow newDate).
    unfold saved. rewrite (savePhoto_success _ _ _ _ _ Hr Hold).
    destruct w as [[ia ip r] al co ss ps hs]; simpl.
    split; [reflexivity|]. split; [reflexivity|].
    split; [apply Array_sort_Permutation|].
    split; [apply (Array_sort_desc_sorted Photo.timestamp)|].
    split; [intros t; apply (Array_sort_desc_stable Photo.timestamp)|].
    exact (Array_sort_desc_last Photo.timestamp old
             (PhotoScreen.newPhoto photoUri description dateNow newDate)).
  - unfold loaded. rewrite (loadPhotos_readable _ Hr Hold).
    destruct w as [[ia ip r] al co ss ps hs]; simpl.
    repeat split.
    + apply Array_sort_Permutation.
    + apply (Array_sort_desc_sorted Photo.timestamp).
    + intros t. apply (Array_sort_desc_stable Photo.timestamp).
Qed.

Lemma C9_photos_newest_first_stable_witness :
  let w := freshWorld emptyStorage in
  let saved := final (PhotoScreen.savePhoto (js "file:///p1.jpg") (js "Compost bin") 1000 1001 w) in
  exists photo,
    item photos (storage saved) = Some (JsonText ([] ++ [photo]))
    /\ Permutation (photoList (photoScreen saved)) ([] ++ [photo]).
Proof.
  intros w saved.
  destruct (@C9_photos_newest_first_stable w [] (js "file:///p1.jpg")
              (js "Compost bin") 1000 1001 eq_refl eq_refl)
    as ((photo & _ & Hs & Hp & _) & _).
  exists photo. split; [exact Hs | exact Hp].
Defined.

(** C9, counterexample.  Two photos saved at the same millisecond: the second
    save shows the earlier-inserted photo first and the more recently
    inserted one after it, and so does a later [loadPhotos]. *)
Lemma C9_equal_timestamps_counterexample :
  let w1 := final (PhotoScreen.savePhoto (js "file:///p1.jpg") (js "first") 5000 5000
                     (freshWorld emptyStorage)) in
  let w2 := final (PhotoScreen.savePhoto (js "file:///p2.jpg") (js "second") 5000 5000 w1) in
  let w3 := final (PhotoScreen.loadPhotos w2) in
  exists p1 p2,
    Photo.description p1 = js "first"
    /\ Photo.description p2 = js "second"
    /\ Photo.timestamp p1 = Photo.timestamp p2
    /\ item photos (storage w1) = Some (JsonText [p1])
    /\ item photos (storage w2) = Some (JsonText [p1; p2])
    /\ photoList (photoScreen w2) = [p1; p2]
    /\ photoList (photoScreen w3) = [p1; p2]
    /\ photoList (photoScreen w2) <> [p2; p1].
Proof.
  exists (PhotoScreen.newPhoto (js "file:///p1.jpg") (js "first") 5000 5000),
         (PhotoScreen.newPhoto (js "file:///p2.jpg") (js "second") 5000 5000).
  repeat split; try (vm_compute; reflexivity).
  vm_compute. discriminate.
Qed.

(* ================================================================== *)
(** * The streak *)
(* ================================================================== *)

Section Streak.
Context {cal : Calendar}.

Lemma Array_from_Set_In (l : list Z) (d : Z) :
  In d (StatsScreen.Array_from_Set l) <-> In d l.
Proof.
  induction l as [|x l IH]; simpl; [tauto|].
  rewrite filter_In, IH, negb_true_iff, Z.eqb_neq.
  destruct (Z.eq_dec x d); [tauto|].
  split; [tauto|]. intros [E|H]; [tauto|]. right; split; auto.
Qed.

Lemma includes_In (l : list Z) (d : Z) :
  StatsScreen.includes l d = true <-> In d l.
Proof.
  unfold StatsScreen.includes. rewrite existsb_exists.
  split.
  - intros (x & Hx & E). apply Z.eqb_eq in E. subst; exact Hx.
  - intros H. exists d. split; [exact H | apply Z.eqb_refl].
Qed.

(** The sorted array of distinct date strings holds exactly the active days. *)
Lemma includes_uniqueDates (acts : list Activity.t) (d : Z) :
  StatsScreen.includes (StatsScreen.uniqueDates acts) d = active acts d.
Proof.
  apply eq_true_iff_eq.
  rewrite includes_In. unfold StatsScreen.uniqueDates.
  rewrite Array_sort_In, Array_from_Set_In, in_map_iff.
  unfold active. rewrite existsb_exists.
  split; intros (a & H1 & H2).
  - exists a. split; [exact H2 | apply Z.eqb_eq, H1].
  - exists a. split; [apply Z.eqb_eq, H2 | exact H1].
Qed.

(** From day [i >= 1] on, when the dates land on their days, the loop counts
    the active days up to the first inactive one, or up to day 29. *)
Lemma streakLoop_run (dates : list Z) (today : Z) (n : nat) :
  landsOnDays today ->
  forall i s : Z,
    1 <= i -> i + Z.of_nat n = 30 ->
    exists k,
      0 <= k <= Z.of_nat n
      /\ (forall j, i <= j < i + k ->
            StatsScreen.includes dates (toDateString today - j) = true)
      /\ (k < Z.of_nat n ->
            StatsScreen.includes dates (toDateString today - (i + k)) = false)
      /\ StatsScreen.streakLoop dates today n i s = s + k.
Proof.
  intros Hland.
  induction n as [|n IH]; intros i s Hi Hn.
  - exists 0. simpl. repeat split; lia.
  - cbn [StatsScreen.streakLoop].
    replace (i <? 30) with true by (symmetry; apply Z.ltb_lt; lia).
    rewrite Hland by lia.
    destruct (StatsScreen.includes dates (toDateString today - i)) eqn:E.
    + destruct (IH (i + 1) (s + 1)) as (k & Hk & Hall & Hstop & Heq); [lia | lia |].
      exists (k + 1). repeat split; try lia.
      * intros j Hj. destruct (Z.eq_dec j i) as [->|]; [exact E|].
        apply Hall; lia.
      * intros Hlt. replace (i + (k + 1)) with (i + 1 + k) by ring.
        apply Hstop; lia.
    + replace (i >? 0) with true by (symmetry; apply Z.gtb_lt; lia).
      exists 0. repeat split; try lia.
      intros _. replace (i + 0) with i by ring. exact E.
Qed.

Lemma streakLoop_S (dates : list Z) (today : Z) (n : nat) (i s : Z) :
  StatsScreen.streakLoop dates today (S n) i s
  = if i <? 30 then
      if StatsScreen.includes dates (toDateString (minusDays today i))
      then StatsScreen.streakLoop dates today n (i + 1) (s + 1)
      else if i >? 0 then s
      else StatsScreen.streakLoop dates today n (i + 1) s
    else s.
Proof. reflexivity. Qed.

(** The value of [calculateStreak] in terms of the active days, when the
    dates land on their days. *)
Lemma calculateStreak_run (acts : list Activity.t) (today : Z) :
  landsOnDays today ->
  exists k,
    0 <= k <= 29
    /\ (forall j, 1 <= j <= k -> active acts (toDateString today - j) = true)
    /\ (k < 29 -> active acts (toDateString today - (k + 1)) = false)
    /\ StatsScreen.calculateStreak acts today
       = (if active acts (toDateString today) then 1 else 0) + k.
Proof.
  intros Hland.
  destruct acts as [|a acts'] eqn:Ea.
  - exists 0. simpl. repeat split; try lia; reflexivity.
  - rewrite <- Ea. unfold StatsScreen.calculateStreak.
    replace (Nat.eqb (List.length acts) 0) with false by (subst acts; reflexivity).
    change 30%nat with (S 29).
    assert (H29 : 1 + Z.of_nat 29 = 30) by reflexivity.
    revert H29. generalize 29%nat as m. intros m Hm.
    rewrite streakLoop_S.
    change (0 <? 30) with true. change (0 >? 0) with false. cbv iota.
    rewrite Hland by lia. rewrite Z.sub_0_r, includes_uniqueDates.
    destruct (@streakLoop_run (StatsScreen.uniqueDates acts) today m Hland 1
                (if active acts (toDateString today) then 0 + 1 else 0))
      as (k & Hk & Hall & Hstop & Heq); [lia | exact Hm |].
    exists k. repeat split; try lia.
    + intros j Hj. rewrite <- includes_uniqueDates. apply Hall; lia.
    + intros Hlt. rewrite <- includes_uniqueDates.
      replace (k + 1) with (1 + k) by ring. apply Hstop; lia.
    + change (0 + 1) with 1 in *.
      destruct (active acts (toDateString today)); exact Heq.
Qed.


End Streak.

(** In a zone at a fixed offset every date lands on its day. *)
Lemma fixedOffset_landsOnDays (tz today : Z) :
  @landsOnDays (fixedOffset tz) today.
Proof.
  intros i _. cbn [toDateString minusDays fixedOffset].
  replace (today - i * msPerDay + tz) with ((today + tz) + (- i) * msPerDay) by ring.
  rewrite Z.div_add by (unfold msPerDay; lia). ring.
Qed.



(* ================================================================== *)
(** * Loading a collection that is missing or does not parse *)
(* ================================================================== *)

Section Loading.
Context {cal : Calendar}.

(** C7 (as the code has it).  Every loader returns without an exception.  On
    a reachable store: when the key is absent or holds the empty string,
    the collection the screen then holds is the empty sequence (and the home
    screen's totals are 0).  When the key holds a text that does not parse,
    the error is caught and logged on the console and the screen's state is
    left exactly as it was before the load: that is the empty sequence on a
    freshly mounted screen. *)
Theorem C7_load_of_missing_or_malformed (w : World) (today now : Z) :
  let s := StatsScreen.loadStatsData today now w in
  let h := HomeScreen.loadData now w in
  let p := PhotoScreen.loadPhotos w in
  (returns s = true /\ returns h = true /\ returns p = true)
  /\ (reachable (storage w) = true ->
      (truthy (item activities (storage w)) = false ->
         stats_activities (statsScreen (final s)) = []
         /\ recentActivities (homeScreen (final h)) = []
         /\ totalPoints (homeScreen (final h)) = 0
         /\ todayPoints (homeScreen (final h)) = 0)
      /\ (truthy (item photos (storage w)) = false ->
            photoList (photoScreen (final p)) = [])
      /\ (item activities (storage w) = Some MalformedText ->
            statsScreen (final s) = statsScreen w
            /\ homeScreen (final h) = homeScreen w
            /\ console (final s) = console w ++ [js "Error loading stats:"]
            /\ console (final h) = console w ++ [js "Error loading data:"]
            /\ (statsScreen w = initialStatsState ->
                  stats_activities (statsScreen (final s)) = [])
            /\ (homeScreen w = initialHomeState ->
                  recentActivities (homeScreen (final h)) = []))
      /\ (item photos (storage w) = Some MalformedText ->
            photoScreen (final p) = photoScreen w
            /\ console (final p) = console w ++ [js "Error loading photos:"]
            /\ (photoScreen w = initialPhotoState ->
                  photoList (photoScreen (final p)) = []))).
Proof.
  intros s h p. subst s h p.
  destruct w as [[ia ip r] al co ss ps hs].
  unfold StatsScreen.loadStatsData, HomeScreen.loadData, PhotoScreen.loadPhotos,
    try_catch, bind, getItem; cbn [storage reachable].
  split.
  - destruct r; [|repeat split; reflexivity].
    repeat split.
    + destruct ia as [[l| |]|]; simpl; try reflexivity.
      destruct (Nat.eqb (List.length l) 0); reflexivity.
    + destruct ia as [[l| |]|]; reflexivity.
    + destruct ip as [[l| |]|]; reflexivity.
  - intros Hr; simpl in Hr; subst r. simpl.
    split; [|split; [|split]].
    + intros Ht. destruct ia as [[l| |]|]; simpl in Ht; try discriminate;
        simpl; repeat split; reflexivity.
    + intros Ht. destruct ip as [[l| |]|]; simpl in Ht; try discriminate;
        reflexivity.
    + intros ->. simpl. repeat split; try reflexivity.
      * intros ->; reflexivity.
      * intros ->; reflexivity.
    + intros ->. simpl. repeat split; try reflexivity.
      intros ->; reflexivity.
Qed.

End Loading.

Lemma C7_load_of_missing_or_malformed_witness :
  let w := freshWorld malformedActivities in
  reachable (storage w) = true
  /\ returns (@StatsScreen.loadStatsData (fixedOffset 0) 1000 1000 w) = true
  /\ stats_activities
       (statsScreen (final (@StatsScreen.loadStatsData (fixedOffset 0) 1000 1000 w)))
     = [].
Proof.
  intros w.
  destruct (@C7_load_of_missing_or_malformed (fixedOffset 0) w 1000 1000)
    as ((Hs & _) & Hw).
  destruct (Hw eq_refl) as (_ & _ & Hm & _).
  destruct (Hm eq_refl) as (_ & _ & _ & _ & Hfresh & _).
  split; [reflexivity|]. split; [exact Hs | exact (Hfresh eq_refl)].
Defined.

(** C7, counterexample.  The statistics screen has loaded a log of one
    activity; the stored text then becomes unparsable and the screen loads
    again: no exception, but the collection it holds is still the one
    activity, not the empty sequence. *)
Lemma C7_stale_after_malformed_counterexample :
  let cal := fixedOffset 0 in
  let w0 := freshWorld emptyStorage in
  let w1 := final (AddActivityScreen.handleSaveActivity
                     (js "Turned off the lights") (js "Energy Saving") (js "") (js "")
                     1000 1001 w0) in
  let w2 := final (StatsScreen.loadStatsData 2000 2000 w1) in
  let w3 := with_storage malformedActivities w2 in
  let o := StatsScreen.loadStatsData 3000 3000 w3 in
  item activities (storage w3) = Some MalformedText
  /\ returns o = true
  /\ List.length (stats_activities (statsScreen (final o))) = 1%nat
  /\ stats_activities (statsScreen (final o)) <> [].
Proof.
  repeat split; try (vm_compute; reflexivity).
  vm_compute. discriminate.
Qed.

(* ================================================================== *)
(** * Statistics of a non-empty log *)
(* ================================================================== *)

Lemma fold_sumPoints (l : list Activity.t) (acc : Z) :
  fold_left (fun sum activity => sum + Activity.points activity) l acc
  = acc + totalOf l.
Proof.
  revert acc; induction l as [|a l IH]; intros acc; simpl; [lia|].
  rewrite IH. lia.
Qed.

Lemma sumPoints_totalOf (l : list Activity.t) :
  StatsScreen.sumPoints l = totalOf l.
Proof. unfold StatsScreen.sumPoints. rewrite fold_sumPoints. lia. Qed.

Lemma totalOf_app (l1 l2 : list Activity.t) :
  totalOf (l1 ++ l2) = totalOf l1 + totalOf l2.
Proof. induction l1 as [|a l1 IH]; simpl; lia. Qed.



Section NonEmptyLog.
Context {cal : Calendar}.


(** On a reachable store whose activities parse to a non-empty log, the
    load sets all three pieces of state. *)
Lemma loadStatsData_nonempty (w : World) (today now : Z) (acts : list Activity.t) :
  reachable (storage w) = true ->
  readable (item activities (storage w)) = Some acts ->
  acts <> [] ->
  StatsScreen.loadStatsData today now w
  = Returned tt
      (with_statsScreen
         {| stats :=
              {| Stats.totalPoints := StatsScreen.sumPoints acts;
                 Stats.totalActivities := Z.of_nat (List.length acts);
                 Stats.averageDaily := StatsScreen.averageDailyOf acts now;
                 Stats.bestCategory :=
                   StatsScreen.findBestCategory (StatsScreen.categoryBreakdown acts);
                 Stats.currentStreak := StatsScreen.calculateStreak acts today |};
            stats_activities := acts;
            categoryStats := StatsScreen.categoryBreakdown acts |} w).
Proof.
  intros Hr Hs Hne.
  destruct w as [[ia ip r] al co ss ps hs]; simpl in Hr, Hs; subst r.
  unfold StatsScreen.loadStatsData, try_catch, bind, getItem; simpl.
  rewrite (parse_or_empty_readable _ _ Hs).
  destruct acts as [|a acts']; [congruence|]. reflexivity.
Qed.



End NonEmptyLog.



(* ================================================================== *)
(** * Clearing all data *)
(* ================================================================== *)

(** C5, at a failing input.  One activity is recorded and the statistics
    screen loads it; then "Clear All" is pressed.  The removal succeeds, both
    collections read back as empty, the screen's activity list is emptied and
    a new activity can be recorded; but the statistics and the category
    breakdown on the screen are still those computed before the reset, not
    the initial all-zero values. *)
Theorem C5_statistics_stale_after_clear :
  let cal := fixedOffset 0 in
  let w0 := freshWorld emptyStorage in
  let w1 := final (AddActivityScreen.handleSaveActivity
                     (js "Turned off the lights") (js "Energy Saving") (js "") (js "")
                     1000 1001 w0) in
  let w2 := final (StatsScreen.loadStatsData 2000 2000 w1) in
  let w3 := final (StatsScreen.clearAllData_onPress 3000 3000 w2) in
  let w4 := final (AddActivityScreen.handleSaveActivity
                     (js "Took the train") (js "Transportation") (js "") (js "")
                     4000 4001 w3) in
  (* the reset went through and the store is usable *)
  (alerts w3 = alerts w2 ++ [{| title := js "Success";
                                message := js "All data has been cleared" |}]
   /\ readable (item activities (storage w3)) = Some []
   /\ readable (item photos (storage w3)) = Some []
   /\ stats_activities (statsScreen w3) = []
   /\ List.length (match readable (item activities (storage w4)) with
                   | Some l => l
                   | None => []
                   end) = 1%nat)
  (* the snapshot on the screen is the old one *)
  /\ stats (statsScreen w3) = stats (statsScreen w2)
  /\ Stats.totalPoints (stats (statsScreen w3)) = 20
  /\ Stats.totalActivities (stats (statsScreen w3)) = 1
  /\ Stats.averageDaily (stats (statsScreen w3)) = 3
  /\ Stats.bestCategory (stats (statsScreen w3)) = js "Energy Saving"
  /\ Stats.currentStreak (stats (statsScreen w3)) = 1
  /\ categoryStats (statsScreen w3) = [(js "Energy Saving", 20)]
  /\ stats (statsScreen w3) <> initialStats.
Proof.
  repeat split; try (vm_compute; reflexivity).
  vm_compute. discriminate.
Qed.

(* ================================================================== *)
(** * The best category *)
(* ================================================================== *)

Section BestCategory.
Import StatsScreen.

Lemma num_or_0_value (x : option Z) :
  num_or_0 x = match x with Some n => n | None => 0 end.
Proof.
  destruct x as [n|]; simpl; [|reflexivity].
  destruct (Z.eqb_spec n 0); congruence.
Qed.

Lemma obj_get_set (o : JSObject) (k c : jsstring) (v : Z) :
  obj_get (obj_set o k v) c = if streq c k then Some v else obj_get o c.
Proof.
  induction o as [|[k' v'] o IH]; simpl; [reflexivity|].
  destruct (streq k k') eqn:E; simpl.
  - apply streq_eq in E; subst k'. destruct (streq c k); reflexivity.
  - destruct (streq c k') eqn:E'; [|exact IH].
    apply streq_eq in E'; subst k'. rewrite streq_sym, E. reflexivity.
Qed.

Lemma keys_set (o : JSObject) (k : jsstring) (v : Z) :
  Object_keys (obj_set o k v)
  = match obj_get o k with
    | Some _ => Object_keys o
    | None => Object_keys o ++ [k]
    end.
Proof.
  induction o as [|[k' v'] o IH]; simpl; [reflexivity|].
  destruct (streq k k'); simpl; [reflexivity|].
  rewrite IH. destruct (obj_get o k); reflexivity.
Qed.

Lemma breakdown_snoc (l : list Activity.t) (a : Activity.t) :
  categoryBreakdown (l ++ [a])
  = obj_set (categoryBreakdown l) (Activity.category a)
      (num_or_0 (obj_get (categoryBreakdown l) (Activity.category a))
       + Activity.points a).
Proof. unfold categoryBreakdown. rewrite fold_left_app. reflexivity. Qed.

Lemma pointsIn_snoc (c : jsstring) (l : list Activity.t) (a : Activity.t) :
  pointsIn c (l ++ [a])
  = pointsIn c l + (if streq (Activity.category a) c then Activity.points a else 0).
Proof.
  unfold pointsIn. rewrite filter_app, totalOf_app. simpl.
  destruct (streq (Activity.category a) c); simpl; lia.
Qed.

Lemma logs_snoc (c : jsstring) (l : list Activity.t) (a : Activity.t) :
  logs c (l ++ [a]) = logs c l || streq (Activity.category a) c.
Proof. unfold logs. rewrite existsb_app. simpl. rewrite orb_false_r. reflexivity. Qed.

Lemma pointsIn_not_logged (c : jsstring) (l : list Activity.t) :
  logs c l = false -> pointsIn c l = 0.
Proof.
  unfold logs, pointsIn. induction l as [|a l IH]; simpl; [reflexivity|].
  intros H. apply orb_false_iff in H. destruct H as [H1 H2].
  rewrite H1. apply IH, H2.
Qed.

(** The object built by the [forEach] maps each logged category to the sum
    of its points, and has no other key. *)
Lemma breakdown_get (l : list Activity.t) (c : jsstring) :
  obj_get (categoryBreakdown l) c
  = if logs c l then Some (pointsIn c l) else None.
Proof.
  revert c. induction l as [|a l IH] using rev_ind; intros c; [reflexivity|].
  rewrite breakdown_snoc, obj_get_set, logs_snoc, pointsIn_snoc.
  destruct (streq c (Activity.category a)) eqn:E.
  - apply streq_eq in E; subst c. rewrite streq_refl, orb_true_r.
    rewrite num_or_0_value, IH.
    destruct (logs (Activity.category a) l) eqn:L; [reflexivity|].
    rewrite (pointsIn_not_logged _ _ L). reflexivity.
  - rewrite streq_sym, E, orb_false_r, IH.
    destruct (logs c l); [f_equal; lia | reflexivity].
Qed.

Lemma firstLogged_snoc (l : list Activity.t) (a : Activity.t) :
  firstLogged (l ++ [a])
  = firstLogged l ++ (if logs (Activity.category a) l then [] else [Activity.category a]).
Proof.
  induction l as [|x l IH]; [reflexivity|].
  cbn [app firstLogged]. rewrite IH, filter_app. cbn [app]. do 2 f_equal.
  unfold logs at 2. cbn [existsb]. fold (logs (Activity.category a) l).
  destruct (logs (Activity.category a) l).
  - rewrite orb_true_r. reflexivity.
  - rewrite orb_false_r. simpl.
    rewrite (streq_sym (Activity.category a)).
    destruct (streq (Activity.category x) (Activity.category a)); reflexivity.
Qed.

(** Its keys come in the order in which the categories were first logged. *)
Lemma breakdown_keys (l : list Activity.t) :
  Object_keys (categoryBreakdown l) = firstLogged l.
Proof.
  induction l as [|a l IH] using rev_ind; [reflexivity|].
  rewrite breakdown_snoc, keys_set, breakdown_get, IH, firstLogged_snoc.
  destruct (logs (Activity.category a) l); [rewrite app_nil_r|]; reflexivity.
Qed.




End BestCategory.


Section BestCategoryOnScreen.
Context {cal : Calendar}.


End BestCategoryOnScreen.



(* ================================================================== *)
(** * The home screen *)
(* ================================================================== *)

Lemma StronglySorted_app_inv {A} (R : A -> A -> Prop) (l1 l2 : list A) :
  StronglySorted R (l1 ++ l2) ->
  StronglySorted R l1 /\ (forall a b, In a l1 -> In b l2 -> R a b).
Proof.
  induction l1 as [|x l1 IH]; simpl; intros H.
  - split; [constructor | intros a b []].
  - inversion H as [|? ? Hs Hall]; subst.
    destruct (IH Hs) as [Hs1 Hcross].
    apply Forall_app in Hall. destruct Hall as [Hall1 Hall2].
    split; [constructor; assumption|].
    intros a b [<-|Ha] Hb.
    + rewrite Forall_forall in Hall2. apply Hall2, Hb.
    + apply Hcross; assumption.
Qed.


Lemma totalOf_filter_nonneg (f : Activity.t -> bool) (l : list Activity.t) :
  Forall (fun a => 0 <= Activity.points a) l -> 0 <= totalOf (filter f l).
Proof.
  induction 1 as [|a l Ha _ IH]; simpl; [lia|].
  destruct (f a); simpl; lia.
Qed.

Section Home.
Context {cal : Calendar}.

(** What [loadData] does on a reachable store whose activities parse. *)
Lemma loadData_readable (w : World) (now : Z) (acts : list Activity.t) :
  reachable (storage w) = true ->
  readable (item activities (storage w)) = Some acts ->
  HomeScreen.loadData now w
  = Returned tt
      (with_homeScreen
         {| totalPoints := totalOf acts;
            todayPoints :=
              totalOf (filter (fun a => toDateString (Activity.timestamp a)
                                        =? toDateString now) acts);
            recentActivities :=
              firstn 5 (Array_sort
                          (fun a b => Activity.timestamp b - Activity.timestamp a)
                          acts) |} w).
Proof.
  intros Hr Hs.
  destruct w as [[ia ip r] al co ss ps hs]; simpl in Hr, Hs; subst r.
  unfold HomeScreen.loadData, try_catch, bind, getItem; simpl.
  rewrite (parse_or_empty_readable _ _ Hs).
  unfold HomeScreen.setTotalPoints, HomeScreen.setTodayPoints,
    HomeScreen.setRecentActivities, with_homeScreen; simpl.
  rewrite !sumPoints_totalOf. reflexivity.
Qed.

(** X1.  After [loadData], "Recent Activities" holds at most five records of
    the log, all of them when the log has five or fewer, ordered newest
    first; every record left out is no newer than every record shown. *)
Theorem X1_home_recent_are_the_newest_five
    (w : World) (now : Z) (acts : list Activity.t) :
  reachable (storage w) = true ->
  readable (item activities (storage w)) = Some acts ->
  let shown := recentActivities (homeScreen (final (HomeScreen.loadData now w))) in
  List.length shown = Nat.min 5 (List.length acts)
  /\ StronglySorted
       (fun a b => Activity.timestamp a >= Activity.timestamp b) shown
  /\ exists rest,
       Permutation (shown ++ rest) acts
       /\ forall a b, In a shown -> In b rest ->
                      Activity.timestamp a >= Activity.timestamp b.
Proof.
  intros Hr Hs shown.
  set (sorted := Array_sort (fun a b => Activity.timestamp b - Activity.timestamp a) acts).
  assert (E : shown = firstn 5 sorted).
  { unfold shown. rewrite (loadData_readable _ now Hr Hs).
    destruct w as [[ia ip r] al co ss ps hs]; reflexivity. }
  rewrite E. clear E shown.
  assert (Hperm : Permutation sorted acts) by apply Array_sort_Permutation.
  assert (Hsorted : StronglySorted
                      (fun a b => Activity.timestamp a >= Activity.timestamp b)
                      (firstn 5 sorted ++ skipn 5 sorted)).
  { rewrite firstn_skipn. apply (Array_sort_desc_sorted Activity.timestamp). }
  apply StronglySorted_app_inv in Hsorted. destruct Hsorted as [H1 H2].
  split; [|split].
  - rewrite length_firstn, (Permutation_length Hperm). reflexivity.
  - exact H1.
  - exists (skipn 5 sorted). split; [rewrite firstn_skipn; exact Hperm | exact H2].
Qed.


End Home.

Lemma X1_home_recent_are_the_newest_five_witness :
  let cal := fixedOffset 0 in
  let acts := [loggedOnDay 1; loggedOnDay 7; loggedOnDay 3; loggedOnDay 9;
               loggedOnDay 2; loggedOnDay 5] in
  let w := freshWorld (storeOf acts) in
  List.length (recentActivities (homeScreen (final (HomeScreen.loadData tenDays w))))
  = 5%nat.
Proof.
  intros cal acts w.
  destruct (@X1_home_recent_are_the_newest_five cal w tenDays acts eq_refl eq_refl)
    as (Hlen & _).
  exact Hlen.
Defined.


Lemma filter_none (f : Activity.t -> bool) (l : list Activity.t) :
  existsb f l = false -> filter f l = [].
Proof.
  induction l as [|a l IH]; simpl; [reflexivity|].
  intros H. apply orb_false_iff in H. destruct H as [-> H]. apply IH, H.
Qed.

Lemma totalOf_filter_pos (f : Activity.t -> bool) (l : list Activity.t) :
  Forall (fun a => 0 < Activity.points a) l ->
  existsb f l = true -> 0 < totalOf (filter f l).
Proof.
  induction 1 as [|a l Ha Hall IH]; simpl; [discriminate|].
  assert (P : 0 <= totalOf (filter f l)).
  { apply totalOf_filter_nonneg. eapply Forall_impl; [|exact Hall].
    simpl; intros; lia. }
  destruct (f a); simpl; [lia | exact IH].
Qed.

Section HomeMessage.
Context {cal : Calendar}.

(** X3.  When every record of the log has positive points, the home screen
    greets with "Ready to make an impact?" after [loadData] exactly when no
    record of the log was created today. *)
Theorem X3_home_ready_message_iff_nothing_today
    (w : World) (now : Z) (acts : list Activity.t) :
  reachable (storage w) = true ->
  readable (item activities (storage w)) = Some acts ->
  Forall (fun a => 0 < Activity.points a) acts ->
  let h := homeScreen (final (HomeScreen.loadData now w)) in
  HomeScreen.getMotivationMessage (todayPoints h)
  = js "Ready to make an impact? " ++ [240%N; 376%N; 338%N; 177%N]
  <-> active acts (toDateString now) = false.
Proof.
  intros Hr Hs Hpos h.
  set (today := fun a => toDateString (Activity.timestamp a) =? toDateString now).
  assert (Ed : todayPoints h = totalOf (filter today acts)).
  { unfold h. rewrite (loadData_readable _ now Hr Hs).
    destruct w as [[ia ip r] al co ss ps hs]; reflexivity. }
  rewrite Ed. change (active acts (toDateString now)) with (existsb today acts).
  destruct (existsb today acts) eqn:E.
  - pose proof (totalOf_filter_pos today Hpos E) as P.
    split; [|discriminate]. intros M. exfalso.
    unfold HomeScreen.getMotivationMessage in M.
    destruct (totalOf (filter today acts) >=? 50);
      [vm_compute in M; discriminate|].
    destruct (totalOf (filter today acts) >=? 20);
      [vm_compute in M; discriminate|].
    destruct (Z.gtb_spec (totalOf (filter today acts)) 0);
      [vm_compute in M; discriminate | lia].
  - rewrite (filter_none _ _ E). split; reflexivity.
Qed.

End HomeMessage.

Lemma X3_home_ready_message_iff_nothing_today_witness :
  let cal := fixedOffset 0 in
  let acts := [loggedOnDay 8; loggedOnDay 9] in
  let h := homeScreen (final (HomeScreen.loadData tenDays (freshWorld (storeOf acts)))) in
  Forall (fun a => 0 < Activity.points a) acts
  /\ HomeScreen.getMotivationMessage (todayPoints h)
     = js "Ready to make an impact? " ++ [240%N; 376%N; 338%N; 177%N].
Proof.
  intros cal acts h.
  assert (Hpos : Forall (fun a => 0 < Activity.points a) acts).
  { repeat constructor. }
  split; [exact Hpos|].
  apply (@X3_home_ready_message_iff_nothing_today cal (freshWorld (storeOf acts))
           tenDays acts eq_refl eq_refl Hpos).
  reflexivity.
Defined.

(* ================================================================== *)
(** * Saving when the store fails *)
(* ================================================================== *)

(** X4.  A valid activity form on a store that rejects the call, or whose
    activities text does not parse, ends in the one alert "Failed to save
    activity"; nothing is written and no screen changes. *)
Theorem X4_activity_save_fails_closed
    (w : World) (description category duration notes : jsstring)
    (dateNow newDate : Z) :
  trim description <> [] ->
  category <> [] ->
  reachable (storage w) = false \/ readable (item activities (storage w)) = None ->
  AddActivityScreen.handleSaveActivity description category duration notes
    dateNow newDate w
  = Returned tt
      (with_alerts
         (alerts w ++ [{| title := js "Error"; message := js "Failed to save activity" |}])
         w).
Proof.
  intros Hd Hc H.
  unfold AddActivityScreen.handleSaveActivity.
  apply truthy_str_true in Hd, Hc. rewrite Hd, Hc. simpl.
  destruct w as [[ia ip r] al co ss ps hs]; simpl in H.
  unfold try_catch, bind, getItem; simpl.
  destruct r.
  - destruct H as [H|H]; [discriminate|].
    destruct ia as [[l| |]|]; simpl in H; try discriminate. reflexivity.
  - reflexivity.
Qed.

Lemma X4_activity_save_fails_closed_witness :
  let w := freshWorld malformedActivities in
  storage (final (AddActivityScreen.handleSaveActivity
                    (js "Rode the bus") (js "Transportation") (js "20") (js "")
                    1000 1001 w))
  = malformedActivities.
Proof.
  intros w.
  assert (Hd : trim (js "Rode the bus") <> []) by (vm_compute; discriminate).
  assert (Hc : js "Transportation" <> []) by (vm_compute; discriminate).
  rewrite (@X4_activity_save_fails_closed w (js "Rode the bus") (js "Transportation")
             (js "20") (js "") 1000 1001 Hd Hc (or_intror eq_refl)).
  reflexivity.
Defined.

(** X5.  [savePhoto] on a store that rejects the call, or whose photos text
    does not parse, ends in the one alert "Failed to save photo"; nothing is
    written and the list on the screen stays as it was. *)
Theorem X5_photo_save_fails_closed
    (w : World) (photoUri description : jsstring) (dateNow newDate : Z) :
  reachable (storage w) = false \/ readable (item photos (storage w)) = None ->
  PhotoScreen.savePhoto photoUri description dateNow newDate w
  = Returned tt
      (with_alerts
         (alerts w ++ [{| title := js "Error"; message := js "Failed to save photo" |}])
         w).
Proof.
  intros H.
  destruct w as [[ia ip r] al co ss ps hs]; simpl in H.
  unfold PhotoScreen.savePhoto, try_catch, bind, getItem; simpl.
  destruct r.
  - destruct H as [H|H]; [discriminate|].
    destruct ip as [[l| |]|]; simpl in H; try discriminate. reflexivity.
  - reflexivity.
Qed.

Lemma X5_photo_save_fails_closed_witness :
  let w := freshWorld unreachableStorage in
  photoScreen (final (PhotoScreen.savePhoto (js "file:///p1.jpg") (js "Compost bin")
                        1000 1001 w))
  = initialPhotoState.
Proof.
  intros w.
  rewrite (@X5_photo_save_fails_closed w (js "file:///p1.jpg") (js "Compost bin")
             1000 1001 (or_introl eq_refl)).
  reflexivity.
Defined.

(* ================================================================== *)
(** * How the operations compose *)
(* ================================================================== *)

Section Composition.
Context {cal : Calendar}.


(** X7.  Loading and exporting only read: [loadStatsData], [loadData],
    [loadPhotos] and [exportData] leave the store exactly as it was,
    whatever it holds. *)
Theorem X7_loaders_never_write
    (w : World) (today now : Z) (localeDate location : jsstring) :
  storage (final (StatsScreen.loadStatsData today now w)) = storage w
  /\ storage (final (HomeScreen.loadData now w)) = storage w
  /\ storage (final (PhotoScreen.loadPhotos w)) = storage w
  /\ storage (final (StatsScreen.exportData localeDate location w)) = storage w.
Proof.
  destruct w as [[ia ip r] al co ss ps hs].
  unfold StatsScreen.loadStatsData, HomeScreen.loadData, PhotoScreen.loadPhotos,
    StatsScreen.exportData, try_catch, bind, getItem; cbn [storage reachable].
  destruct r; [|repeat split; reflexivity].
  repeat split.
  - destruct ia as [[l| |]|]; try reflexivity.
    destruct l; reflexivity.
  - destruct ia as [[l| |]|]; reflexivity.
  - destruct ip as [[l| |]|]; reflexivity.
  - destruct ip as [[l| |]|]; reflexivity.
Qed.

(** X8.  "Clear All" on a reachable store removes both keys and announces
    it; the next [loadData] then shows 0 points in total, 0 today and no
    recent activity, and the next [loadPhotos] shows no photo, whatever the
    screens showed before.  On a store that rejects the call the only effect
    is the alert "Failed to clear data". *)
Theorem X8_clear_all_empties_the_store (w : World) (today now : Z) :
  let cleared := final (StatsScreen.clearAllData_onPress today now w) in
  (reachable (storage w) = true ->
     item activities (storage cleared) = None
     /\ item photos (storage cleared) = None
     /\ alerts cleared
        = alerts w ++ [{| title := js "Success";
                          message := js "All data has been cleared" |}]
     /\ stats_activities (statsScreen cleared) = []
     /\ homeScreen (final (HomeScreen.loadData now cleared))
        = {| totalPoints := 0; todayPoints := 0; recentActivities := [] |}
     /\ photoList (photoScreen (final (PhotoScreen.loadPhotos cleared))) = [])
  /\ (reachable (storage w) = false ->
        StatsScreen.clearAllData_onPress today now w
        = Returned tt
            (with_alerts
               (alerts w ++ [{| title := js "Error";
                                message := js "Failed to clear data" |}]) w)).
Proof.
  destruct w as [[ia ip r] al co ss ps hs]. cbv zeta. split.
  - intros Hr; simpl in Hr; subst r. repeat split; reflexivity.
  - intros Hr; simpl in Hr; subst r. reflexivity.
Qed.

End Composition.


Lemma X8_clear_all_empties_the_store_witness :
  let cal := fixedOffset 0 in
  let w := freshWorld (storeOf [loggedOnDay 9]) in
  item activities (storage (final (StatsScreen.clearAllData_onPress tenDays tenDays w)))
  = None.
Proof.
  intros cal w.
  destruct (@X8_clear_all_empties_the_store cal w tenDays tenDays) as (H & _).
  destruct (H eq_refl) as (Ha & _). exact Ha.
Defined.

(** X9.  After a successful [savePhoto], reloading with [loadPhotos] shows the
    very list the save left on the screen. *)
Theorem X9_photo_list_survives_reload
    (w : World) (old : list Photo.t)
    (photoUri description : jsstring) (dateNow newDate : Z) :
  reachable (storage w) = true ->
  readable (item photos (storage w)) = Some old ->
  let saved := final (PhotoScreen.savePhoto photoUri description dateNow newDate w) in
  photoList (photoScreen (final (PhotoScreen.loadPhotos saved)))
  = photoList (photoScreen saved).
Proof.
  intros Hr Hold saved. unfold saved.
  rewrite (savePhoto_success _ _ _ _ _ Hr Hold).
  destruct w as [[ia ip r] al co ss ps hs]; simpl in Hr; subst r.
  unfold PhotoScreen.loadPhotos, try_catch, bind, getItem; reflexivity.
Qed.

Lemma X9_photo_list_survives_reload_witness :
  let w := freshWorld emptyStorage in
  let saved := final (PhotoScreen.savePhoto (js "file:///p1.jpg") (js "Compost bin")
                        1000 1001 w) in
  photoList (photoScreen (final (PhotoScreen.loadPhotos saved)))
  = photoList (photoScreen saved).
Proof.
  intros w saved.
  exact (@X9_photo_list_survives_reload w [] (js "file:///p1.jpg") (js "Compost bin")
           1000 1001 eq_refl eq_refl).
Defined.

(* ================================================================== *)
(** * More on the streak *)
(* ================================================================== *)

Lemma StronglySorted_ge_NoDup_gt (l : list Z) :
  StronglySorted (fun a b => a >= b) l -> NoDup l ->
  StronglySorted (fun a b => a > b) l.
Proof.
  induction 1 as [|x l Hs IH Hall]; intros Hnd; [constructor|].
  inversion Hnd as [|? ? Hx Hnd']; subst.
  constructor; [apply IH, Hnd'|].
  rewrite Forall_forall in *. intros y Hy.
  specialize (Hall y Hy). assert (x <> y) by (intros ->; contradiction). lia.
Qed.

Section StreakFacts.
Context {cal : Calendar}.

Lemma Array_from_Set_NoDup (l : list Z) : NoDup (StatsScreen.Array_from_Set l).
Proof.
  induction l as [|x l IH]; simpl; constructor.
  - rewrite filter_In, negb_true_iff, Z.eqb_neq. tauto.
  - apply NoDup_filter, IH.
Qed.

(** The loop only ever adds to the running count, at most once a turn. *)
Lemma streakLoop_bounds (dates : list Z) (today : Z) (n : nat) :
  forall i s : Z,
    s <= StatsScreen.streakLoop dates today n i s <= s + Z.of_nat n.
Proof.
  induction n as [|n IH]; intros i s; [simpl; lia|].
  rewrite streakLoop_S.
  pose proof (IH (i + 1) (s + 1)). pose proof (IH (i + 1) s).
  destruct (i <? 30); [|lia].
  destruct (StatsScreen.includes dates (toDateString (minusDays today i))); [lia|].
  destruct (i >? 0); lia.
Qed.

(** When every date it builds is in the array, the loop counts every turn. *)
Lemma streakLoop_all (dates : list Z) (today : Z) (n : nat) :
  forall i s : Z,
    0 <= i -> i + Z.of_nat n = 30 ->
    (forall j, i <= j < 30 ->
       StatsScreen.includes dates (toDateString (minusDays today j)) = true) ->
    StatsScreen.streakLoop dates today n i s = s + Z.of_nat n.
Proof.
  induction n as [|n IH]; intros i s Hi Hn Hall; [simpl; lia|].
  rewrite streakLoop_S.
  replace (i <? 30) with true by (symmetry; apply Z.ltb_lt; lia).
  rewrite Hall by lia.
  rewrite IH; [lia | lia | lia |]. intros j Hj. apply Hall. lia.
Qed.

(** The loop reads the array only through [includes]. *)
Lemma streakLoop_ext (dates dates' : list Z) (today : Z) (n : nat) :
  (forall d, StatsScreen.includes dates d = StatsScreen.includes dates' d) ->
  forall i s : Z,
    StatsScreen.streakLoop dates today n i s
    = StatsScreen.streakLoop dates' today n i s.
Proof.
  intros Hsame. induction n as [|n IH]; intros i s; [reflexivity|].
  rewrite !streakLoop_S, Hsame, !IH. reflexivity.
Qed.

(** X10.  The streak is between 0 and 30.  When the dates the loop builds
    land on their days, it is 0 exactly when neither today nor yesterday has
    an activity, and at least 1 as soon as today has one. *)
Theorem X10_streak_zero_iff_two_idle_days (acts : list Activity.t) (today : Z) :
  let d0 := toDateString today in
  0 <= StatsScreen.calculateStreak acts today <= 30
  /\ (landsOnDays today ->
      (StatsScreen.calculateStreak acts today = 0
       <-> active acts d0 = false /\ active acts (d0 - 1) = false)
      /\ (active acts d0 = true -> 1 <= StatsScreen.calculateStreak acts today)).
Proof.
  intros d0. split.
  - unfold StatsScreen.calculateStreak.
    destruct (Nat.eqb (List.length acts) 0); [lia|].
    pose proof (streakLoop_bounds (StatsScreen.uniqueDates acts) today 30 0 0) as B.
    change (Z.of_nat 30) with 30 in B. lia.
  - intros Hland.
    destruct (calculateStreak_run acts Hland) as (k & Hk & Hall & Hstop & Heq).
    fold d0 in Hall, Hstop, Heq. rewrite Heq.
    destruct (active acts d0) eqn:E0.
    + split; [|lia]. split; [lia | intros [H _]; discriminate].
    + split; [|discriminate]. split.
      * intros Hz. assert (k = 0) by lia. subst k.
        split; [reflexivity|]. apply Hstop. lia.
      * intros [_ H1]. destruct (Z.eq_dec k 0) as [->|Hk0]; [reflexivity|].
        rewrite Hall in H1 by lia. discriminate.
Qed.

(** X11.  When today and each of the 29 days before it has an activity, and
    every date the loop builds falls on one of those 30 days (as it does
    when [setDate] lands on the intended day, or a day late), the streak is
    30, however many earlier days are active as well: the scan stops after
    30 days. *)
Theorem X11_streak_is_capped_at_thirty (acts : list Activity.t) (today : Z) :
  (forall j, 0 <= j <= 29 -> active acts (toDateString today - j) = true) ->
  (forall i, 0 <= i < 30 ->
     toDateString today - 29 <= toDateString (minusDays today i)
                             <= toDateString today) ->
  StatsScreen.calculateStreak acts today = 30.
Proof.
  intros Hact Hin.
  assert (Hne : Nat.eqb (List.length acts) 0 = false).
  { destruct acts; [|reflexivity].
    specialize (Hact 0 ltac:(lia)). discriminate. }
  unfold StatsScreen.calculateStreak. rewrite Hne.
  rewrite streakLoop_all; [reflexivity | lia | reflexivity |].
  intros j Hj. rewrite includes_uniqueDates.
  specialize (Hin j Hj).
  replace (toDateString (minusDays today j))
    with (toDateString today - (toDateString today - toDateString (minusDays today j)))
    by ring.
  apply Hact. lia.
Qed.

(** X12.  The streak depends on the log only through its set of active days:
    two logs with the same active days have the same streak, whatever the
    order, the number or the other fields of their records. *)
Theorem X12_streak_depends_on_active_days_only
    (acts acts' : list Activity.t) (today : Z) :
  (forall d, active acts d = active acts' d) ->
  StatsScreen.calculateStreak acts today = StatsScreen.calculateStreak acts' today.
Proof.
  intros Hsame.
  assert (Hnone : forall l : list Activity.t,
            (forall d, active l d = false) -> l = []).
  { intros [|a l] H; [reflexivity|].
    specialize (H (toDateString (Activity.timestamp a))).
    unfold active in H. cbn [existsb] in H. rewrite Z.eqb_refl in H. discriminate. }
  unfold StatsScreen.calculateStreak.
  destruct acts as [|a l] eqn:Ea; destruct acts' as [|a' l'] eqn:Ea';
    try reflexivity.
  - exfalso. assert (E : a' :: l' = []) by (apply Hnone; intros d; rewrite <- Hsame; reflexivity).
    discriminate.
  - exfalso. assert (E : a :: l = []) by (apply Hnone; intros d; rewrite Hsame; reflexivity).
    discriminate.
  - cbn [List.length Nat.eqb].
    apply streakLoop_ext. intros d. rewrite !includes_uniqueDates. apply Hsame.
Qed.

(** X13.  The array of unique dates that [calculateStreak] builds holds
    exactly the active days, each once, latest first. *)
Theorem X13_unique_dates_strictly_descending (acts : list Activity.t) :
  StronglySorted (fun a b => a > b) (StatsScreen.uniqueDates acts)
  /\ forall d, In d (StatsScreen.uniqueDates acts) <-> active acts d = true.
Proof.
  split.
  - apply StronglySorted_ge_NoDup_gt.
    + apply (Array_sort_desc_sorted (fun x : Z => x)).
    + unfold StatsScreen.uniqueDates.
      eapply Permutation_NoDup;
        [symmetry; apply Array_sort_Permutation | apply Array_from_Set_NoDup].
  - intros d. rewrite <- includes_In. rewrite includes_uniqueDates. reflexivity.
Qed.

End StreakFacts.

Lemma X11_streak_is_capped_at_thirty_witness :
  let cal := fixedOffset 0 in
  let acts := List.map (fun n => loggedOnDay (Z.of_nat n)) (seq 60 40) in
  StatsScreen.calculateStreak acts (99 * msPerDay + 5000) = 30.
Proof.
  intros cal acts.
  apply (@X11_streak_is_capped_at_thirty cal acts (99 * msPerDay + 5000)).
  - intros j Hj. unfold active. apply existsb_exists.
    exists (loggedOnDay (99 - j)). split.
    + unfold acts. apply in_map_iff. exists (Z.to_nat (99 - j)). split.
      * rewrite Z2Nat.id by lia. reflexivity.
      * apply in_seq. lia.
    + apply Z.eqb_eq.
      change (toDateString (99 * msPerDay + 5000)) with 99.
      unfold loggedOnDay, AddActivityScreen.newActivity.
      cbn [Activity.timestamp toDateString cal fixedOffset].
      unfold msPerDay.
      replace ((99 - j) * 86400000 + 1000 + 0) with (1000 + (99 - j) * 86400000) by ring.
      rewrite Z.div_add by lia. reflexivity.
  - intros i Hi. unfold cal.
    rewrite (@fixedOffset_landsOnDays 0 (99 * msPerDay + 5000) i Hi). lia.
Defined.

Lemma X12_streak_depends_on_active_days_only_witness :
  let cal := fixedOffset 0 in
  StatsScreen.calculateStreak [loggedOnDay 9; loggedOnDay 10] tenDays
  = StatsScreen.calculateStreak [loggedOnDay 10; loggedOnDay 9; loggedOnDay 10] tenDays.
Proof.
  intros cal.
  apply (@X12_streak_depends_on_active_days_only cal).
  intros d. unfold active. cbn [existsb].
  destruct (toDateString (Activity.timestamp (loggedOnDay 9)) =? d);
    destruct (toDateString (Activity.timestamp (loggedOnDay 10)) =? d); reflexivity.
Defined.

Lemma X10_streak_zero_iff_two_idle_days_witness :
  let cal := fixedOffset 0 in
  landsOnDays (tenDays + 5000)
  /\ 1 <= StatsScreen.calculateStreak [loggedOnDay 10] (tenDays + 5000).
Proof.
  intros cal.
  assert (L : landsOnDays (tenDays + 5000)) by apply fixedOffset_landsOnDays.
  split; [exact L|].
  destruct (@X10_streak_zero_iff_two_idle_days cal [loggedOnDay 10] (tenDays + 5000))
    as (_ & H).
  destruct (H L) as (_ & H1).
  apply H1. reflexivity.
Defined.

(* ================================================================== *)
(** * The category breakdown on the statistics screen *)
(* ================================================================== *)






Lemma breakdown_nonempty (l : list Activity.t) :
  l <> [] -> StatsScreen.categoryBreakdown l <> [].
Proof.
  intros Hne E.
  assert (K : Object_keys (StatsScreen.categoryBreakdown l) = []) by (rewrite E; reflexivity).
  rewrite breakdown_keys in K. destruct l; [congruence | discriminate].
Qed.

Section Breakdown.
Context {cal : Calendar}.



End Breakdown.



(* ================================================================== *)
(** * Achievements *)
(* ================================================================== *)

Lemma In_if_singleton {A} (b : bool) (x t : A) :
  In t (if b then [x] else []) <-> t = x /\ b = true.
Proof.
  destruct b; simpl; split.
  - intros [<-|[]]. split; reflexivity.
  - intros [-> _]. left; reflexivity.
  - intros [].
  - intros [_ H]; discriminate.
Qed.

(** Which texts the section renders. *)
Lemma In_achievements (s : StatsState) (t : jsstring) :
  In t (StatsScreen.achievements s)
  <-> (t = StatsScreen.firstActivityBadge /\ 1 <= Stats.totalActivities (stats s))
      \/ (t = StatsScreen.club50Badge /\ 50 <= Stats.totalPoints (stats s))
      \/ (t = StatsScreen.club100Badge /\ 100 <= Stats.totalPoints (stats s))
      \/ (t = StatsScreen.streak3Badge /\ 3 <= Stats.currentStreak (stats s))
      \/ (t = StatsScreen.weekWarriorBadge /\ 7 <= Stats.currentStreak (stats s))
      \/ (t = StatsScreen.noAchievementsText /\ categoryStats s = []).
Proof.
  unfold StatsScreen.achievements.
  rewrite !in_app_iff, !In_if_singleton, !Z.geb_le.
  assert (K : Nat.eqb (List.length (Object_keys (categoryStats s))) 0 = true
              <-> categoryStats s = []).
  { destruct (categoryStats s); simpl; split; congruence. }
  rewrite K. reflexivity.
Qed.

Section Achievements.
Context {cal : Calendar}.

(** X16.  A freshly mounted screen shows only the invitation "Complete
    activities to unlock achievements!".  After [loadStatsData] on a
    non-empty log (categories from the Category Table) the "First Activity"
    badge is shown and the invitation is not.  On any screen the "100 Points
    Club" badge comes with the "50 Points Club" badge and "Week Warrior"
    comes with "3-Day Streak". *)
Theorem X16_achievements_shown
    (w : World) (today now : Z) (acts : list Activity.t) (any : StatsState) :
  StatsScreen.achievements initialStatsState = [StatsScreen.noAchievementsText]
  /\ (In StatsScreen.club100Badge (StatsScreen.achievements any) ->
        In StatsScreen.club50Badge (StatsScreen.achievements any))
  /\ (In StatsScreen.weekWarriorBadge (StatsScreen.achievements any) ->
        In StatsScreen.streak3Badge (StatsScreen.achievements any))
  /\ (reachable (storage w) = true ->
      readable (item activities (storage w)) = Some acts ->
      acts <> [] ->
      Forall (fun a => In (Activity.category a) tableNames) acts ->
      let s := statsScreen (final (StatsScreen.loadStatsData today now w)) in
      In StatsScreen.firstActivityBadge (StatsScreen.achievements s)
      /\ ~ In StatsScreen.noAchievementsText (StatsScreen.achievements s)).
Proof.
  split; [reflexivity|]. split; [|split].
  - rewrite !In_achievements.
    intros [[E _]|[[E _]|[[_ H]|[[E _]|[[E _]|[E _]]]]]];
      try (vm_compute in E; discriminate).
    right; left. split; [reflexivity | lia].
  - rewrite !In_achievements.
    intros [[E _]|[[E _]|[[E _]|[[E _]|[[_ H]|[E _]]]]]];
      try (vm_compute in E; discriminate).
    right; right; right; left. split; [reflexivity | lia].
  - intros Hr Hs Hne _ s.
    assert (Ec : categoryStats s = StatsScreen.categoryBreakdown acts
                 /\ Stats.totalActivities (stats s) = Z.of_nat (List.length acts)).
    { unfold s. rewrite (loadStatsData_nonempty _ today now Hr Hs Hne).
      destruct w as [[ia ip r] al co ss ps hs]; split; reflexivity. }
    destruct Ec as [Ec En].
    rewrite !In_achievements. split.
    + left. split; [reflexivity|]. rewrite En. destruct acts; [congruence|].
      simpl List.length. lia.
    + intros [[E _]|[[E _]|[[E _]|[[E _]|[[E _]|[_ H]]]]]];
        try (vm_compute in E; discriminate).
      rewrite Ec in H. exact (breakdown_nonempty Hne H).
Qed.

End Achievements.

Lemma X16_achievements_shown_witness :
  let cal := fixedOffset 0 in
  let acts := [loggedOnDay 9] in
  let s := statsScreen (final (StatsScreen.loadStatsData tenDays tenDays
                                 (freshWorld (storeOf acts)))) in
  In StatsScreen.firstActivityBadge (StatsScreen.achievements s).
Proof.
  intros cal acts s.
  assert (Ht : Forall (fun a => In (Activity.category a) tableNames) acts).
  { repeat constructor; simpl; tauto. }
  assert (Hne : acts <> []) by discriminate.
  destruct (@X16_achievements_shown cal (freshWorld (storeOf acts)) tenDays tenDays
              acts initialStatsState) as (_ & _ & _ & H).
  destruct (H eq_refl eq_refl Hne Ht) as (Hin & _). exact Hin.
Defined.

(* ================================================================== *)
(** * Bounds on the points of one activity *)
(* ================================================================== *)

Lemma basePoints_bounds (category : jsstring) :
  5 <= AddActivityScreen.basePoints category <= 20.
Proof.
  unfold AddActivityScreen.basePoints.
  destruct (find _ AddActivityScreen.categories) as [info|] eqn:F; [|lia].
  apply find_some in F. destruct F as [Hin _].
  unfold AddActivityScreen.categories in Hin. simpl in Hin.
  repeat (destruct Hin as [<- | Hin]; [simpl; lia|]). contradiction.
Qed.

(** X17.  Whatever the category and the duration text, [calculatePoints]
    gives at most 50 points, the base being between 5 and 20; it gives at
    least the base (so at least 5) when the duration does not parse to a
    negative number, and exactly the base when it does not parse at all. *)
Theorem X17_points_of_one_activity_are_bounded (category duration : jsstring) :
  let earned := AddActivityScreen.calculatePoints category duration in
  let base := AddActivityScreen.basePoints category in
  5 <= base <= 20
  /\ earned <= 50
  /\ (0 <= parsedDuration duration -> base <= earned)
  /\ (parseInt duration = None -> earned = base).
Proof.
  intros earned base.
  pose proof (basePoints_bounds category) as B. fold base in B.
  assert (E : earned = base + Z.min (parsedDuration duration) 30).
  { unfold earned, AddActivityScreen.calculatePoints, AddActivityScreen.durationBonus.
    rewrite num_or_0_parsed. reflexivity. }
  rewrite E. repeat split; try lia.
  intros Hnone. unfold parsedDuration. rewrite Hnone. change (Z.min 0 30) with 0. lia.
Qed.

Lemma X17_points_of_one_activity_are_bounded_witness :
  AddActivityScreen.basePoints (js "Recycling")
  <= AddActivityScreen.calculatePoints (js "Recycling") (js "12 minutes").
Proof.
  destruct (@X17_points_of_one_activity_are_bounded (js "Recycling") (js "12 minutes"))
    as (_ & _ & H & _).
  apply H. vm_compute. discriminate.
Defined.

(* ================================================================== *)
(** * Loading twice, and exporting *)
(* ================================================================== *)

Section Reload.
Context {cal : Calendar}.

(** X18.  Loading the statistics a second time, with the same clock readings
    and no write in between, leaves the screen exactly as the first load
    did, whatever the store holds. *)
Theorem X18_loading_statistics_twice (w : World) (today now : Z) :
  let once := final (StatsScreen.loadStatsData today now w) in
  let twice := final (StatsScreen.loadStatsData today now once) in
  statsScreen twice = statsScreen once /\ storage twice = storage once.
Proof.
  destruct w as [[ia ip r] al co ss ps hs]. cbv zeta.
  unfold StatsScreen.loadStatsData, try_catch, bind, getItem; cbn [storage reachable].
  destruct r; [|split; reflexivity].
  destruct ia as [[l| |]|]; try (split; reflexivity).
  destruct l; split; reflexivity.
Qed.

(** X19.  [exportData] always returns and raises exactly one alert, leaving
    every screen as it was.  When the store is reachable and its photos
    parse, the alert is the summary built from the statistics that are on
    the screen and from the number of photos in the store; otherwise it is
    "Failed to export data". *)
Theorem X19_export_reports_screen_statistics_and_stored_photos
    (w : World) (localeDate location : jsstring) :
  let o := StatsScreen.exportData localeDate location w in
  returns o = true
  /\ statsScreen (final o) = statsScreen w
  /\ photoScreen (final o) = photoScreen w
  /\ homeScreen (final o) = homeScreen w
  /\ (forall stored,
        reachable (storage w) = true ->
        readable (item photos (storage w)) = Some stored ->
        alerts (final o)
        = alerts w
          ++ [{| title := js "Export Data Summary";
                 message := StatsScreen.exportSummary (stats (statsScreen w))
                              (List.length stored) localeDate location |}])
  /\ (reachable (storage w) = false \/ readable (item photos (storage w)) = None ->
        alerts (final o)
        = alerts w ++ [{| title := js "Error"; message := js "Failed to export data" |}]).
Proof.
  destruct w as [[ia ip r] al co ss ps hs]. cbv zeta.
  unfold StatsScreen.exportData, try_catch, bind, getItem; cbn [storage reachable].
  destruct r.
  - destruct ip as [[l| |]|]; simpl;
      (repeat split; try reflexivity;
       [ intros stored _ E; inversion E; reflexivity
       | intros [E|E]; discriminate ])
      || (repeat split; try reflexivity; intros stored _ E; discriminate).
  - simpl. repeat split; try reflexivity. intros stored E; discriminate.
Qed.

End Reload.

Lemma X19_export_reports_screen_statistics_and_stored_photos_witness :
  let w := freshWorld emptyStorage in
  alerts (final (StatsScreen.exportData (js "11/2/2026") (js "Getting location...") w))
  = alerts w
    ++ [{| title := js "Export Data Summary";
           message := StatsScreen.exportSummary (stats (statsScreen w)) 0
                        (js "11/2/2026") (js "Getting location...") |}].
Proof.
  intros w.
  destruct (@X19_export_reports_screen_statistics_and_stored_photos w
              (js "11/2/2026") (js "Getting location...")) as (_ & _ & _ & _ & H & _).
  exact (H [] eq_refl eq_refl).
Defined.

(* ================================================================== *)
(** * The text fields of a stored activity *)
(* ================================================================== *)

Lemma trimStart_head (s : jsstring) (c : N) (r : jsstring) :
  trimStart s = c :: r -> isWhiteSpace c = false.
Proof.
  induction s as [|x s IH]; simpl; [discriminate|].
  destruct (isWhiteSpace x) eqn:E; [exact IH|].
  intros H; inversion H; subst; exact E.
Qed.

Lemma trimStart_fixed (s : jsstring) :
  (forall c r, s = c :: r -> isWhiteSpace c = false) -> trimStart s = s.
Proof.
  destruct s as [|c r]; [reflexivity|]. intros H. simpl.
  rewrite (H c r eq_refl). reflexivity.
Qed.

Lemma trimStart_snoc (l : jsstring) (c : N) :
  isWhiteSpace c = false -> exists q, trimStart (l ++ [c]) = q ++ [c].
Proof.
  intros Hc. induction l as [|x l IH]; simpl.
  - rewrite Hc. exists []. reflexivity.
  - destruct (isWhiteSpace x); [exact IH|]. exists (x :: l). reflexivity.
Qed.

(** A trimmed text does not begin with white space... *)
Lemma trim_head (s : jsstring) (c : N) (r : jsstring) :
  trim s = c :: r -> isWhiteSpace c = false.
Proof.
  unfold trim, trimEnd. destruct (trimStart s) as [|c0 r0] eqn:E.
  - simpl. discriminate.
  - pose proof (trimStart_head _ E) as Hc0.
    simpl rev. destruct (@trimStart_snoc (rev r0) c0 Hc0) as (q & ->).
    rewrite rev_app_distr. simpl. intros H; inversion H; subst; exact Hc0.
Qed.

(** ... nor end with it. *)
Lemma trim_last (s : jsstring) (c : N) (r : jsstring) :
  rev (trim s) = c :: r -> isWhiteSpace c = false.
Proof.
  unfold trim, trimEnd. rewrite rev_involutive. apply trimStart_head.
Qed.

Lemma trim_trim (s : jsstring) : trim (trim s) = trim s.
Proof.
  assert (H1 : trimStart (trim s) = trim s)
    by (apply trimStart_fixed; intros c r; apply trim_head).
  unfold trim at 1. rewrite H1. unfold trimEnd.
  rewrite (@trimStart_fixed (rev (trim s))) by (intros c r; apply trim_last).
  apply rev_involutive.
Qed.

(** X20.  The record a successful [handleSaveActivity] stores has a
    description that is not empty and neither begins nor ends with white
    space, and its description, duration and notes are all already trimmed;
    the category is stored as selected. *)
Theorem X20_stored_text_fields_are_trimmed
    (w : World) (old : list Activity.t)
    (description category duration notes : jsstring) (dateNow newDate : Z) :
  trim description <> [] ->
  category <> [] ->
  reachable (storage w) = true ->
  readable (item activities (storage w)) = Some old ->
  let w' := final (AddActivityScreen.handleSaveActivity
                     description category duration notes dateNow newDate w) in
  exists act,
    item activities (storage w') = Some (JsonText (old ++ [act]))
    /\ Activity.description act <> []
    /\ (forall c r, Activity.description act = c :: r -> isWhiteSpace c = false)
    /\ (forall c r, rev (Activity.description act) = c :: r -> isWhiteSpace c = false)
    /\ trim (Activity.description act) = Activity.description act
    /\ trim (Activity.duration act) = Activity.duration act
    /\ trim (Activity.notes act) = Activity.notes act
    /\ Activity.category act = category.
Proof.
  intros Hd Hc Hr Hold w'.
  exists (AddActivityScreen.newActivity description category duration notes dateNow newDate).
  split.
  - unfold w'. erewrite handleSaveActivity_success by eassumption.
    destruct w as [[ia ip r] al co ss ps hs]; reflexivity.
  - cbn [AddActivityScreen.newActivity Activity.description Activity.duration
           Activity.notes Activity.category].
    split; [exact Hd|].
    split; [intros c r; apply trim_head|].
    split; [intros c r; apply trim_last|].
    repeat split; apply trim_trim.
Qed.

Lemma X20_stored_text_fields_are_trimmed_witness :
  let w := freshWorld emptyStorage in
  exists act,
    item activities
      (storage (final (AddActivityScreen.handleSaveActivity
                         (js "  Rode the bus ") (js "Transportation") (js " 20 ")
                         (js "") 1000 1001 w)))
    = Some (JsonText ([] ++ [act]))
    /\ trim (Activity.description act) = Activity.description act.
Proof.
  intros w.
  assert (Hd : trim (js "  Rode the bus ") <> []) by (vm_compute; discriminate).
  assert (Hc : js "Transportation" <> []) by (vm_compute; discriminate).
  destruct (@X20_stored_text_fields_are_trimmed w [] (js "  Rode the bus ")
              (js "Transportation") (js " 20 ") (js "") 1000 1001
              Hd Hc eq_refl eq_refl) as (act & Hs & _ & _ & _ & Ht & _).
  exists act. split; [exact Hs | exact Ht].
Defined.
